(** * qcodes.utils.multiprocessing: stream multiplexing and server control

    A shallow embedding of [StreamQueue], [_SQWriter] and [ServerManager]
    from [qcodes/utils/multiprocessing.py], and the properties the design
    document states about them.

    Python objects become records, methods become functions in a state
    monad whose results are: a value, a raised exception, or a call that
    blocks for ever.  What other processes and the operating system do
    (the clock, a failing library call, the worker's reaction to a query)
    is an explicit argument of the operation that observes it. *)

From Stdlib Require Import String Ascii List ZArith Lia Bool.
From Stdlib Require Import Floats.PrimFloat.
Import ListNotations.

Local Open Scope list_scope.
Local Open Scope string_scope.

(** ** Python values, exceptions and control flow *)

Module Py.

(** The exception classes that these classes raise or catch. *)
Inductive exn : Type :=
| RuntimeError (msg : string)
| TypeError (msg : string)
| ValueError (msg : string)
| IndexError (msg : string)
| UnboundLocalError (msg : string)
| Empty.

Definition is_ValueError (e : exn) : bool :=
  match e with ValueError _ => true | _ => false end.

Definition is_Empty (e : exn) : bool :=
  match e with Empty => true | _ => false end.

(** How a call ends: it returns, it raises, or it never comes back. *)
Inductive outcome (A : Type) : Type :=
| Ret (a : A)
| Raise (e : exn)
| Hang.

Arguments Ret {A} a.
Arguments Raise {A} e.
Arguments Hang {A}.

(** A method body over a mutable store [S].  The store survives a raise,
    as it does in Python. *)
Definition M (S A : Type) : Type := S -> outcome A * S.

Definition ret {S A} (a : A) : M S A := fun s => (Ret a, s).

Definition raise {S A} (e : exn) : M S A := fun s => (Raise e, s).

Definition hang {S A} : M S A := fun s => (Hang, s).

Definition bind {S A B} (m : M S A) (k : A -> M S B) : M S B :=
  fun s =>
    match m s with
    | (Ret a, s') => k a s'
    | (Raise e, s') => (Raise e, s')
    | (Hang, s') => (Hang, s')
    end.

Definition gets {S A} (f : S -> A) : M S A := fun s => (Ret (f s), s).

Definition modify {S} (f : S -> S) : M S unit := fun s => (Ret tt, f s).

(** [try: body / except <cls> as e: handler e], with [catches] deciding
    which exceptions the clause names; [fun _ => true] is a bare [except:]. *)
Definition try_except {S A} (body : M S A) (catches : exn -> bool)
    (handler : exn -> M S A) : M S A :=
  fun s =>
    match body s with
    | (Raise e, s') => if catches e then handler e s' else (Raise e, s')
    | r => r
    end.

(** [try: body / finally: fin], also the shape of a [with] block: [fin]
    runs on return and on raise, and the first outcome is kept unless
    [fin] itself does not return. *)
Definition try_finally {S A} (body : M S A) (fin : M S unit) : M S A :=
  fun s =>
    match body s with
    | (Hang, s') => (Hang, s')
    | (r, s') =>
        match fin s' with
        | (Ret _, s'') => (r, s'')
        | (Raise e, s'') => (Raise e, s'')
        | (Hang, s'') => (Hang, s'')
        end
    end.

Declare Scope py_scope.
Delimit Scope py_scope with py.

Notation "x <- m ;; k" := (bind m (fun x => k))
  (at level 100, m at next level, right associativity) : py_scope.
Notation "m ;;; k" := (bind m (fun _ => k))
  (at level 100, right associativity) : py_scope.

(** *** Strings *)

Definition nl : ascii := "010"%char.

(** [s[-1]]; [None] stands for the IndexError on an empty string. *)
Fixpoint last_char (s : string) : option ascii :=
  match s with
  | EmptyString => None
  | String c EmptyString => Some c
  | String _ s' => last_char s'
  end.

(** [s[:-n]] for a positive literal [n]. *)
Definition drop_last (n : nat) (s : string) : string :=
  substring 0 (String.length s - n) s.

(** [s.replace(c, r)] for a one-character pattern [c]. *)
Fixpoint replace_char (c : ascii) (r : string) (s : string) : string :=
  match s with
  | EmptyString => EmptyString
  | String a s' =>
      (if Ascii.eqb a c then r else String a EmptyString)
        ++ replace_char c r s'
  end.

(** [sep.join(parts)]. *)
Fixpoint join (sep : string) (parts : list string) : string :=
  match parts with
  | [] => EmptyString
  | [p] => p
  | p :: ps => p ++ sep ++ join sep ps
  end.

(** [c in s]. *)
Fixpoint mem_char (c : ascii) (s : string) : bool :=
  match s with
  | EmptyString => false
  | String a s' => Ascii.eqb a c || mem_char c s'
  end.

(** Truthiness of a string: [if s:]. *)
Definition nonempty (s : string) : bool :=
  match s with EmptyString => false | _ => true end.

(** [sub in s], as a proposition. *)
Definition contains (s sub : string) : Prop :=
  exists pre post, s = pre ++ sub ++ post.

End Py.

Import Py.
Local Open Scope py_scope.
Local Open Scope Z_scope.

(** ** StreamQueue and _SQWriter *)

Module Streams.

(** The one-character string ['\n']. *)
Definition NL : string := String nl EmptyString.

(** A queued message: the tuple [(timestr, stream_name, msg)]. *)
Definition msgtuple : Type := (string * string * string)%type.

(** [_SQWriter]: its [queue] and [last_read_ts] attributes are the very
    objects of the StreamQueue it was built from, so they are reached
    through the StreamQueue of the process store and not copied here. *)
Record _SQWriter : Type := { stream_name : string }.

(** What [sys.stdout] and [sys.stderr] can be bound to: a real text
    stream of the interpreter, or a writer installed by [connect]. *)
Inductive stream : Type :=
| TextIO (fd : nat)
| Writer (w : _SQWriter).

(** The four stream attributes of the [sys] module. *)
Record sys_module : Type := {
  stdout : stream;
  stderr : stream;
  __stdout__ : stream;
  __stderr__ : stream
}.

(** The attributes of a StreamQueue ([lock] is created and never used). *)
Record StreamQueue : Type := {
  queue : list msgtuple;
  last_read_ts : float;
  _last_stream : option string;
  _on_new_line : bool;
  initial_streams : option (stream * stream)
}.

(** The store of one process: [sys], the StreamQueue, and the text that
    has reached the real terminal behind [sys.__stdout__]. *)
Record process : Type := {
  sys : sys_module;
  sq : StreamQueue;
  terminal : string
}.

Definition with_sys (f : sys_module -> sys_module) (p : process) : process :=
  {| sys := f (sys p); sq := sq p; terminal := terminal p |}.

Definition with_sq (f : StreamQueue -> StreamQueue) (p : process) : process :=
  {| sys := sys p; sq := f (sq p); terminal := terminal p |}.

Definition set_streams (out err : stream) (m : sys_module) : sys_module :=
  {| stdout := out; stderr := err;
     __stdout__ := __stdout__ m; __stderr__ := __stderr__ m |}.

Definition set_stdout (out : stream) (m : sys_module) : sys_module :=
  set_streams out (stderr m) m.

Definition set_stderr (err : stream) (m : sys_module) : sys_module :=
  set_streams (stdout m) err m.

Definition set_queue (q : list msgtuple) (s : StreamQueue) : StreamQueue :=
  {| queue := q; last_read_ts := last_read_ts s;
     _last_stream := _last_stream s; _on_new_line := _on_new_line s;
     initial_streams := initial_streams s |}.

Definition set_last_read_ts (t : float) (s : StreamQueue) : StreamQueue :=
  {| queue := queue s; last_read_ts := t;
     _last_stream := _last_stream s; _on_new_line := _on_new_line s;
     initial_streams := initial_streams s |}.

Definition set_cursor (on_new_line : bool) (last : option string)
    (s : StreamQueue) : StreamQueue :=
  {| queue := queue s; last_read_ts := last_read_ts s;
     _last_stream := last; _on_new_line := on_new_line;
     initial_streams := initial_streams s |}.

Definition set_initial_streams (i : option (stream * stream))
    (s : StreamQueue) : StreamQueue :=
  {| queue := queue s; last_read_ts := last_read_ts s;
     _last_stream := _last_stream s; _on_new_line := _on_new_line s;
     initial_streams := i |}.

(** [StreamQueue.__init__], at clock reading [now]. *)
Definition StreamQueue_init (now : float) : StreamQueue :=
  {| queue := []; last_read_ts := now; _last_stream := None;
     _on_new_line := true; initial_streams := None |}.

(** *** connect and disconnect *)

Definition connect (process_name : string) : M process unit :=
  initial <- gets (fun p => initial_streams (sq p)) ;;
  match initial with
  | Some _ => raise (RuntimeError "StreamQueue is already connected")
  | None =>
      out <- gets (fun p => stdout (sys p)) ;;
      err <- gets (fun p => stderr (sys p)) ;;
      modify (with_sq (set_initial_streams (Some (out, err)))) ;;;
      modify (with_sys
                (set_stdout (Writer {| stream_name := process_name |}))) ;;;
      modify (with_sys
                (set_stderr
                   (Writer {| stream_name := process_name ++ " ERR" |})))
  end.

Definition disconnect : M process unit :=
  initial <- gets (fun p => initial_streams (sq p)) ;;
  match initial with
  | None => raise (RuntimeError "StreamQueue is not connected")
  | Some (out, err) =>
      modify (with_sys (set_streams out err)) ;;;
      modify (with_sq (set_initial_streams None))
  end.

(** *** The clock and the library calls a writer makes *)

(** [datetime.now()]: the fields [strftime] reads. *)
Record datetime : Type := {
  hour : Z;
  minute : Z;
  second : Z;
  microsecond : Z
}.

(** The decimal digit of the units of [n]. *)
Definition digit (n : Z) : ascii :=
  ascii_of_nat (48 + Z.to_nat (n mod 10)).

(** [%H], [%M], [%S]: two digits, zero padded. *)
Definition pad2 (n : Z) : string :=
  String (digit (n / 10)) (String (digit n) EmptyString).

(** Three digits, zero padded. *)
Definition pad3 (n : Z) : string :=
  String (digit (n / 100)) (pad2 n).

(** [%f]: the microsecond as six digits, zero padded. *)
Definition pad6 (n : Z) : string :=
  String (digit (n / 100000))
    (String (digit (n / 10000)) (String (digit (n / 1000)) (pad3 n))).

(** [d.strftime('%H:%M:%S.%f')]. *)
Definition strftime (d : datetime) : string :=
  pad2 (hour d) ++ ":" ++ pad2 (minute d) ++ ":" ++ pad2 (second d)
    ++ "." ++ pad6 (microsecond d).

(** The calls in [write] that can raise. *)
Inductive libcall : Type :=
| CallStrftime
| CallPut
| CallFormat
| CallPrint.

(** What the surroundings answer during one call: the two clock readings
    and, for each library call, the exception it raises if it fails. *)
Record env : Type := {
  datetime_now : datetime;
  time_time : float;
  fault : libcall -> option exn
}.

Definition lib {A} (e : env) (c : libcall) (body : M process A)
  : M process A :=
  match fault e c with
  | Some x => raise x
  | None => body
  end.

(** *** _SQWriter.write *)

Definition MIN_READ_TIME : float := 3%float.

(** The format ['[{} {}] {}'] applied to the three fields of the tuple. *)
Definition format_termstr (m : msgtuple) : string :=
  let '(timestr, name, msg) := m in
  "[" ++ timestr ++ " " ++ name ++ "] " ++ msg.

Definition ends_with_nl (s : string) : bool :=
  match last_char s with
  | Some c => Ascii.eqb c nl
  | None => false
  end.

(** [queue.put(m)]. *)
Definition queue_put (m : msgtuple) (s : StreamQueue) : StreamQueue :=
  set_queue ((queue s ++ [m])%list) s.

(** [print(s, file=sys.__stdout__)]. *)
Definition terminal_print (s : string) (p : process) : process :=
  {| sys := sys p; sq := sq p; terminal := terminal p ++ s ++ NL |}.

(** [sys.stdout, sys.stderr = sys.__stdout__, sys.__stderr__]. *)
Definition restore_streams (m : sys_module) : sys_module :=
  set_streams (__stdout__ m) (__stderr__ m) m.

(** The suite of the [try] statement of [write]. *)
Definition write_try (e : env) (self : _SQWriter) (msg : string)
  : M process unit :=
  if nonempty msg then
    timestr <- lib e CallStrftime
                 (ret (drop_last 3 (strftime (datetime_now e)))) ;;
    let msgtuple := (timestr, stream_name self, msg) in
    lib e CallPut (modify (with_sq (queue_put msgtuple))) ;;;
    last <- gets (fun p => last_read_ts (sq p)) ;;
    let queue_age := PrimFloat.sub (time_time e) last in
    if PrimFloat.ltb MIN_READ_TIME queue_age && negb (String.eqb msg NL)
    then
      termstr <- lib e CallFormat (ret (format_termstr msgtuple)) ;;
      let termstr :=
        if ends_with_nl termstr then drop_last 1 termstr else termstr in
      try_except
        (lib e CallPrint (modify (terminal_print termstr)))
        is_ValueError
        (fun _ => ret tt)
    else ret tt
  else ret tt.

Definition write (e : env) (self : _SQWriter) (msg : string)
  : M process unit :=
  try_except
    (write_try e self msg)
    (fun _ => true)
    (fun ex => modify (with_sys restore_streams) ;;; raise ex).

(** [_SQWriter.flush]. *)
Definition flush (self : _SQWriter) : M process unit := ret tt.

(** *** StreamQueue.get *)

(** ['[{} {}] '.format(timestr, stream_name)]. *)
Definition format_line_head (timestr name : string) : string :=
  "[" ++ timestr ++ " " ++ name ++ "] ".

(** [stream_name != self._last_stream]. *)
Definition differs (name : string) (last : option string) : bool :=
  match last with
  | Some l => negb (String.eqb name l)
  | None => true
  end.

(** The line-head part that one iteration adds to [out]. *)
Definition head_part (on_new_line : bool) (last : option string)
    (name line_head : string) : string :=
  if on_new_line then line_head
  else if differs name last then NL ++ line_head
  else EmptyString.

(** The text part that one iteration adds to [out]: the message up to
    its last character, with ['\n' + line_head] in place of every
    newline, and then the last character.  There is none when [msg] is
    empty, where [msg[-1]] is an IndexError. *)
Definition body_part (line_head msg : string) : option string :=
  match last_char msg with
  | None => None
  | Some c =>
      Some (replace_char nl (NL ++ line_head) (drop_last 1 msg)
              ++ String c EmptyString)
  end.

(** The [while not self.queue.empty()] loop over the messages [pending]
    that the queue holds when [get] is called. *)
Fixpoint get_loop (pending : list msgtuple) (out : string)
  : M process string :=
  match pending with
  | [] => ret out
  | (timestr, name, msg) :: rest =>
      modify (with_sq (set_queue rest)) ;;;
      let line_head := format_line_head timestr name in
      on_new_line <- gets (fun p => _on_new_line (sq p)) ;;
      last <- gets (fun p => _last_stream (sq p)) ;;
      let out := out ++ head_part on_new_line last name line_head in
      match body_part line_head msg with
      | Some body =>
          let out := out ++ body in
          modify (with_sq (set_cursor (ends_with_nl msg) (Some name))) ;;;
          get_loop rest out
      | None => raise (IndexError "string index out of range")
      end
  end.

Definition get (e : env) : M process string :=
  pending <- gets (fun p => queue (sq p)) ;;
  out <- get_loop pending EmptyString ;;
  modify (with_sq (set_last_read_ts (time_time e))) ;;;
  ret out.

End Streams.

(** ** ServerManager *)

Module Server.

Definition NL : string := Streams.NL.

(** Python numbers: [bool], [int] and [float]. *)
Inductive number : Type :=
| NBool (b : bool)
| NInt (z : Z)
| NFloat (f : float).

(** The values that travel as query items and responses. *)
Inductive pyval : Type :=
| PNone
| PNum (n : number)
| PStr (s : string).

(** A timeout: [None] or a number of seconds. *)
Definition timeout_val : Type := option number.

(** [bool(t)] for a timeout. *)
Definition truthy (t : timeout_val) : bool :=
  match t with
  | None => false
  | Some (NBool b) => b
  | Some (NInt z) => negb (Z.eqb z 0)
  | Some (NFloat f) => negb (PrimFloat.eqb f 0%float)
  end.

(** [a or b]. *)
Definition py_or (a b : timeout_val) : timeout_val :=
  if truthy a then a else b.

(** The three channels as the worker sees them. *)
Record channels : Type := {
  queries : list (list pyval);
  responses : list pyval;
  errors : list string
}.

(** A worker process: still serving, on its way out, or gone. *)
Inductive status : Type :=
| Running
| Stopping
| Exited.

(** The pluggable server behaviour.  It runs in another process; what the
    manager can observe of it is what it has done to the channels, and
    whether it is still serving, by the time a wait of [timeout] on the
    response channel ends. *)
Record server_class : Type := {
  serve : timeout_val -> channels -> channels * status
}.

Record QcodesProcess : Type := {
  pid : nat;
  proc_name : string;
  target : server_class;
  proc_status : status
}.

Record ServerManager : Type := {
  name : string;
  _query_queue : list (list pyval);
  _response_queue : list pyval;
  _error_queue : list string;
  _server_class : server_class;
  query_lock : nat;
  query_timeout : timeout_val;
  _server : QcodesProcess
}.

(** The calls a manager makes on its lock, channels and process. *)
Inductive event : Type :=
| EvAcquire
| EvRelease
| EvPut (query : list pyval)
| EvGet (timeout : timeout_val)
| EvErrorGet
| EvPrint (text : string)
| EvIsAlive
| EvJoin (p : nat)
| EvStart (p : nat) (pname : string).

(** The store of the controlling process: the manager, the text printed
    on [sys.stderr], the calls made so far, and the next process id. *)
Record controller : Type := {
  self : ServerManager;
  stderr_text : string;
  log : list event;
  next_pid : nat
}.

Definition with_self (f : ServerManager -> ServerManager) (c : controller)
  : controller :=
  {| self := f (self c); stderr_text := stderr_text c; log := log c;
     next_pid := next_pid c |}.

Definition emit (ev : event) : M controller unit :=
  modify (fun c =>
    {| self := self c; stderr_text := stderr_text c;
       log := (log c ++ [ev])%list; next_pid := next_pid c |}).

Definition set_channels (ch : channels) (m : ServerManager) : ServerManager :=
  {| name := name m; _query_queue := queries ch;
     _response_queue := responses ch; _error_queue := errors ch;
     _server_class := _server_class m; query_lock := query_lock m;
     query_timeout := query_timeout m; _server := _server m |}.

Definition get_channels (m : ServerManager) : channels :=
  {| queries := _query_queue m; responses := _response_queue m;
     errors := _error_queue m |}.

Definition set_lock (n : nat) (m : ServerManager) : ServerManager :=
  {| name := name m; _query_queue := _query_queue m;
     _response_queue := _response_queue m; _error_queue := _error_queue m;
     _server_class := _server_class m; query_lock := n;
     query_timeout := query_timeout m; _server := _server m |}.

Definition set_server (p : QcodesProcess) (m : ServerManager)
  : ServerManager :=
  {| name := name m; _query_queue := _query_queue m;
     _response_queue := _response_queue m; _error_queue := _error_queue m;
     _server_class := _server_class m; query_lock := query_lock m;
     query_timeout := query_timeout m; _server := p |}.

Definition set_status (s : status) (p : QcodesProcess) : QcodesProcess :=
  {| pid := pid p; proc_name := proc_name p; target := target p;
     proc_status := s |}.

(** *** The channels and the worker *)

(** [self._query_queue.put(query)]. *)
Definition query_put (query : list pyval) : M controller unit :=
  emit (EvPut query) ;;;
  modify (with_self (fun m =>
    set_channels
      {| queries := (_query_queue m ++ [query])%list;
         responses := _response_queue m; errors := _error_queue m |} m)).

(** What a serving worker has done when a wait of [timeout] ends. *)
Definition worker_reacts (timeout : timeout_val) (m : ServerManager)
  : ServerManager :=
  match proc_status (_server m) with
  | Running =>
      let '(ch, s) := serve (target (_server m)) timeout (get_channels m) in
      set_server (set_status s (_server m)) (set_channels ch m)
  | _ => m
  end.

(** [self._response_queue.get(timeout=timeout)]: the head of the channel
    if one is there when the wait ends; otherwise [Empty] after a finite
    wait, and no return from a wait without limit. *)
Definition response_get (timeout : timeout_val) : M controller pyval :=
  emit (EvGet timeout) ;;;
  modify (with_self (worker_reacts timeout)) ;;;
  q <- gets (fun c => _response_queue (self c)) ;;
  match q with
  | r :: rest =>
      modify (with_self (fun m =>
        set_channels
          {| queries := _query_queue m; responses := rest;
             errors := _error_queue m |} m)) ;;;
      ret r
  | [] =>
      match timeout with
      | None => hang
      | Some _ => raise Empty
      end
  end.

(** [self._error_queue.empty()]. *)
Definition error_empty : M controller bool :=
  gets (fun c => match _error_queue (self c) with [] => true | _ => false end).

(** [print(text, file=sys.stderr)]. *)
Definition print_stderr (text : string) : M controller unit :=
  emit (EvPrint text) ;;;
  modify (fun c =>
    {| self := self c; stderr_text := stderr_text c ++ text ++ NL;
       log := log c; next_pid := next_pid c |}).

(** [with self.query_lock: body]. *)
Definition with_query_lock {A} (body : M controller A) : M controller A :=
  emit EvAcquire ;;;
  modify (with_self (fun m => set_lock (S (query_lock m)) m)) ;;;
  try_finally body
    (emit EvRelease ;;;
     modify (with_self (fun m => set_lock (Nat.pred (query_lock m)) m))).

(** *** The methods *)

(** [_start_server(self, name)], called with or without its argument. *)
Definition _start_server (arg : option string) : M controller unit :=
  match arg with
  | None =>
      raise (TypeError
        "_start_server() missing 1 required positional argument: 'name'")
  | Some pname =>
      p <- gets next_pid ;;
      cls <- gets (fun c => _server_class (self c)) ;;
      modify (fun c =>
        {| self := set_server
             {| pid := p; proc_name := pname; target := cls;
                proc_status := Running |} (self c);
           stderr_text := stderr_text c; log := log c;
           next_pid := S (next_pid c) |}) ;;;
      emit (EvStart p pname)
  end.

(** [ServerManager.__init__], in a controller that has printed
    [printed], made the calls [calls] and used process ids below [p].
    The [_server] attribute does not exist until [_start_server] binds
    it; the record holds a placeholder that nothing reads. *)
Definition ServerManager_init (mname : string) (cls : server_class)
    (timeout : timeout_val) (printed : string) (calls : list event) (p : nat)
  : outcome unit * controller :=
  _start_server (Some mname)
    {| self :=
         {| name := mname; _query_queue := []; _response_queue := [];
            _error_queue := []; _server_class := cls; query_lock := O;
            query_timeout := timeout;
            _server := {| pid := p; proc_name := mname; target := cls;
                          proc_status := Exited |} |};
       stderr_text := printed; log := calls; next_pid := p |}.

(** ['*** error on {} ***'.format(self.name)]. *)
Definition errhead_of (mname : string) : string :=
  "*** error on " ++ mname ++ " ***".

(** [self._error_queue.get()] has no timeout: on an empty channel it
    would wait without limit. *)
Definition _check_for_errors : M controller unit :=
  empty <- error_empty ;;
  if negb empty then
    q <- gets (fun c => _error_queue (self c)) ;;
    match q with
    | [] => hang
    | errstr :: rest =>
        emit EvErrorGet ;;;
        modify (with_self (fun m =>
          set_channels
            {| queries := _query_queue m; responses := _response_queue m;
               errors := rest |} m)) ;;;
        mname <- gets (fun c => name (self c)) ;;
        let errhead := errhead_of mname in
        print_stderr (errhead ++ NL ++ NL ++ errstr) ;;;
        raise (RuntimeError errhead)
    end
  else ret tt.

Definition write (query : list pyval) : M controller unit :=
  query_put query ;;;
  _check_for_errors.

Definition ask (query : list pyval) (timeout : timeout_val)
  : M controller pyval :=
  default <- gets (fun c => query_timeout (self c)) ;;
  let timeout := py_or timeout default in
  with_query_lock
    (query_put query ;;;
     res <- try_except
              (r <- response_get timeout ;; ret (Some r))
              is_Empty
              (fun e =>
                 empty <- error_empty ;;
                 if empty then raise e else ret None) ;;
     _check_for_errors ;;;
     match res with
     | Some r => ret r
     | None =>
         raise (UnboundLocalError
           "local variable 'res' referenced before assignment")
     end).

(** [self._server.is_alive()]. *)
Definition is_alive : M controller bool :=
  emit EvIsAlive ;;;
  gets (fun c =>
    match proc_status (_server (self c)) with
    | Exited => false
    | _ => true
    end).

(** [self._server.join()]: returns once the process has exited, which a
    worker that keeps serving never does. *)
Definition join : M controller unit :=
  p <- gets (fun c => _server (self c)) ;;
  emit (EvJoin (pid p)) ;;;
  match proc_status p with
  | Running => hang
  | _ => modify (with_self (set_server (set_status Exited p)))
  end.

Definition halt : M controller unit :=
  alive <- is_alive ;;
  (if alive then (_ <- ask [PStr "halt"] None ;; ret tt) else ret tt) ;;;
  join.

Definition restart : M controller unit :=
  halt ;;;
  _start_server None.

End Server.

(** ** The design's wording of the drain *)

Module Design.

Import Streams.

(** The text of one message with the line-head repeated after every
    newline but the one that is the last character. *)
Fixpoint coalesced_text (line_head text : string) : string :=
  match text with
  | EmptyString => EmptyString
  | String c EmptyString => String c EmptyString
  | String c rest =>
      (if Ascii.eqb c nl then NL ++ line_head else String c EmptyString)
        ++ coalesced_text line_head rest
  end.

(** The coalescing rule: at a line boundary the line-head is emitted;
    in mid-line it is left out for the same stream, and a newline is
    forced before it for another stream. *)
Definition coalesced_head (at_boundary : bool) (previous : option string)
    (name line_head : string) : string :=
  match at_boundary, previous with
  | true, _ => line_head
  | false, Some prev =>
      if String.eqb prev name then EmptyString else NL ++ line_head
  | false, None => NL ++ line_head
  end.

(** The report for a sequence of messages, given whether the previous
    output ended at a line boundary and which stream it came from. *)
Fixpoint report (at_boundary : bool) (previous : option string)
    (msgs : list msgtuple) : string :=
  match msgs with
  | [] => EmptyString
  | (timestr, name, text) :: rest =>
      let line_head := "[" ++ timestr ++ " " ++ name ++ "] " in
      coalesced_head at_boundary previous name line_head
        ++ coalesced_text line_head text
        ++ report (ends_with_nl text) (Some name) rest
  end.

(** Whether the output ends at a line boundary, and the stream it came
    from, once the messages have been reported. *)
Fixpoint cursor_after (at_boundary : bool) (previous : option string)
    (msgs : list msgtuple) : bool * option string :=
  match msgs with
  | [] => (at_boundary, previous)
  | (_, name, text) :: rest => cursor_after (ends_with_nl text) (Some name) rest
  end.

(** What the loop leaves in the StreamQueue. *)
Definition loop_end (pending : list msgtuple) (s : StreamQueue)
  : StreamQueue :=
  {| queue := match pending with [] => queue s | _ => [] end;
     last_read_ts := last_read_ts s;
     _last_stream :=
       snd (cursor_after (_on_new_line s) (_last_stream s) pending);
     _on_new_line :=
       fst (cursor_after (_on_new_line s) (_last_stream s) pending);
     initial_streams := initial_streams s |}.

(** The text of every queued message is non-empty. *)
Definition texts_nonempty (msgs : list msgtuple) : Prop :=
  Forall (fun m : msgtuple => snd m <> EmptyString) msgs.

(** A line: a string without a newline. *)
Definition nl_free (s : string) : Prop := mem_char nl s = false.

(** No library call of the writer fails. *)
Definition calm (e : env) : Prop := forall c, fault e c = None.

(** [HH:MM:SS.mmm]: the time of day to the millisecond. *)
Definition millis_timestr (d : datetime) : string :=
  pad2 (hour d) ++ ":" ++ pad2 (minute d) ++ ":" ++ pad2 (second d)
    ++ "." ++ pad3 (microsecond d / 1000).

End Design.

(** ** The stages of a request, and the design's wording of ask and halt *)

Module Protocol.

Import Server.

Definition logged (evs : list event) (c : controller) : controller :=
  {| self := self c; stderr_text := stderr_text c;
     log := (log c ++ evs)%list; next_pid := next_pid c |}.

(** The query has been put on the query channel. *)
Definition enqueued (query : list pyval) (c : controller) : controller :=
  {| self :=
       set_channels
         {| queries := (_query_queue (self c) ++ [query])%list;
            responses := _response_queue (self c);
            errors := _error_queue (self c) |}
         (self c);
     stderr_text := stderr_text c;
     log := (log c ++ [EvPut query])%list;
     next_pid := next_pid c |}.

(** The worker process has been joined: it has exited. *)
Definition joined (c : controller) : controller :=
  logged [EvJoin (pid (_server (self c)))]
    (with_self (fun m => set_server (set_status Exited (_server m)) m) c).

(** The timeout that [ask] waits with. *)
Definition effective_timeout (timeout : timeout_val) (c : controller)
  : timeout_val :=
  py_or timeout (query_timeout (self c)).

(** The store when the wait of [ask] on the response channel ends: the
    lock is held, the query is on the query channel, and the worker has
    done what it does within the timeout [t]. *)
Definition waited (query : list pyval) (t : timeout_val) (c : controller)
  : controller :=
  {| self :=
       worker_reacts t
         (set_channels
            {| queries := (_query_queue (self c) ++ [query])%list;
               responses := _response_queue (self c);
               errors := _error_queue (self c) |}
            (set_lock (S (query_lock (self c))) (self c)));
     stderr_text := stderr_text c;
     log := (log c ++ [EvAcquire; EvPut query; EvGet t])%list;
     next_pid := next_pid c |}.

(** The head of the response channel has been taken. *)
Definition took_response (c : controller) : controller :=
  with_self (fun m =>
    set_channels
      {| queries := _query_queue m; responses := tl (_response_queue m);
         errors := _error_queue m |} m) c.

(** The text that [_check_for_errors] prints for the error [errstr]. *)
Definition error_report (mname errstr : string) : string :=
  errhead_of mname ++ NL ++ NL ++ errstr.

(** The head of the error channel has been taken and reported on
    [sys.stderr]. *)
Definition reported (c : controller) : controller :=
  let m := self c in
  let text := error_report (name m) (hd EmptyString (_error_queue m)) in
  {| self :=
       set_channels
         {| queries := _query_queue m; responses := _response_queue m;
            errors := tl (_error_queue m) |} m;
     stderr_text := stderr_text c ++ text ++ NL;
     log := (log c ++ [EvErrorGet; EvPrint text])%list;
     next_pid := next_pid c |}.

(** The lock has been released. *)
Definition released (c : controller) : controller :=
  logged [EvRelease]
    (with_self (fun m => set_lock (Nat.pred (query_lock m)) m) c).





(** [halt] as the design states it: for a live worker the query
    ["halt"] goes out through [ask] and then the process is joined; for
    a worker that has exited, [halt] returns after joining it, without
    asking. *)
Definition halt_as_stated (c : controller) : Prop :=
  let p := _server (self c) in
  match proc_status p with
  | Exited =>
      fst (halt c) = Ret tt
      /\ log (snd (halt c)) = (log c ++ [EvIsAlive; EvJoin (pid p)])%list
  | _ =>
      log (snd (halt c)) =
        (log (snd (ask [PStr "halt"] None (logged [EvIsAlive] c)))
           ++ [EvJoin (pid p)])%list
  end.

End Protocol.

(** ** Concrete stores and surroundings *)

Module Examples.

Import Streams.

Definition sys0 : sys_module :=
  {| stdout := TextIO 1; stderr := TextIO 2;
     __stdout__ := TextIO 1; __stderr__ := TextIO 2 |}.

(** A process whose StreamQueue was created at time 100 and is not
    connected. *)
Definition p0 : process :=
  {| sys := sys0; sq := StreamQueue_init 100%float;
     terminal := EmptyString |}.

(** The same process after [connect('W1')]. *)
Definition p1 : process := snd (connect "W1" p0).

Definition d0 : datetime :=
  {| hour := 9; minute := 5; second := 59; microsecond := 1234 |}.

(** A quiet moment, one second after the last drain. *)
Definition e_fresh : env :=
  {| datetime_now := d0; time_time := 101%float; fault := fun _ => None |}.

(** A quiet moment, four seconds after the last drain. *)
Definition e_stale : env :=
  {| datetime_now := d0; time_time := 104%float; fault := fun _ => None |}.

(** A moment at which the queue has been closed: [put] raises. *)
Definition e_closed : env :=
  {| datetime_now := d0; time_time := 101%float;
     fault := fun c =>
       match c with
       | CallPut => Some (ValueError "Queue is closed")
       | _ => None
       end |}.

Definition w1 : _SQWriter := {| stream_name := "W1" |}.

Definition w1_err : _SQWriter := {| stream_name := "W1 ERR" |}.

(** The process after a worker named W1 printed a line on its standard
    output and an unfinished line on its standard error. *)
Definition p2 : process :=
  snd ((write e_fresh w1 ("hello" ++ NL) ;;; write e_fresh w1_err "world") p0).

(** *** Workers and managers *)

Import Server.

(** A worker that never reads its queries. *)
Definition hung : server_class :=
  {| serve := fun _ ch => (ch, Running) |}.

Definition is_halt (q : list pyval) : bool :=
  match q with
  | [PStr s] => String.eqb s "halt"
  | _ => false
  end.

(** A worker that answers its oldest query with the first item of the
    query, and leaves its loop when that query is ["halt"]. *)
Definition echo : server_class :=
  {| serve := fun _ ch =>
       match queries ch with
       | [] => (ch, Running)
       | q :: rest =>
           ({| queries := rest;
               responses := (responses ch ++ [hd PNone q])%list;
               errors := errors ch |},
            if is_halt q then Stopping else Running)
       end |}.

(** A worker that answers every query by an error and no response. *)
Definition failing : server_class :=
  {| serve := fun _ ch =>
       ({| queries := []; responses := responses ch;
           errors := (errors ch ++ ["Traceback: boom"])%list |},
        Running) |}.

(** A worker that answers its oldest query and reports an error too. *)
Definition sloppy : server_class :=
  {| serve := fun _ ch =>
       ({| queries := tl (queries ch);
           responses := (responses ch ++ [PNum (NInt 42)])%list;
           errors := (errors ch ++ ["Traceback: boom"])%list |},
        Running) |}.

(** A manager named srv with the default timeout of two seconds, in a
    controller that starts from scratch. *)
Definition manager_of (cls : server_class) : controller :=
  snd (ServerManager_init "srv" cls (Some (NInt 2)) EmptyString [] O).

Definition c_hung : controller := manager_of hung.

Definition c_echo : controller := manager_of echo.

Definition c_failing : controller := manager_of failing.

Definition c_sloppy : controller := manager_of sloppy.

(** The echo manager after its worker process has ended. *)
Definition c_dead : controller :=
  with_self (fun m => set_server (set_status Exited (_server m)) m) c_echo.

End Examples.

(** ** set_mp_method *)

Module Mp.

(** The start-method state of the [multiprocessing] module: the methods
    this platform offers, the one it takes by default, and the one that
    has been fixed, if any. *)
Record context : Type := {
  available : list string;
  default_method : string;
  actual : option string
}.

Definition set_actual (a : option string) (c : context) : context :=
  {| available := available c; default_method := default_method c;
     actual := a |}.

Definition MP_ERR : string := "context has already been set".

Definition is_RuntimeError (e : exn) : bool :=
  match e with RuntimeError _ => true | _ => false end.

(** [repr(s)] for a string without quotes or escapes. *)
Definition repr (s : string) : string := "'" ++ s ++ "'".

(** [mp.set_start_method(method, force=force)] for a method given by
    name: it refuses to change a context that has been fixed unless
    forced, and it refuses a method the platform does not offer. *)
Definition set_start_method (method : string) (force : bool)
  : M context unit :=
  a <- gets actual ;;
  match a, force with
  | Some _, false => raise (RuntimeError MP_ERR)
  | _, _ =>
      offered <- gets available ;;
      if existsb (String.eqb method) offered
      then modify (set_actual (Some method))
      else raise (ValueError ("cannot find context for " ++ repr method))
  end.

(** [mp.get_start_method()]: asking fixes the default when nothing has
    been fixed. *)
Definition get_start_method : M context string :=
  a <- gets actual ;;
  match a with
  | Some m => ret m
  | None =>
      d <- gets default_method ;;
      modify (set_actual (Some d)) ;;;
      ret d
  end.

(** The error of [set_mp_method] about a method that is not the one
    asked for. *)
Definition unexpected (found method : string) : exn :=
  RuntimeError ("unexpected multiprocessing method '" ++ found
                  ++ "' when trying to set '" ++ method ++ "'").

Definition set_mp_method (method : string) (force : bool) : M context unit :=
  try_except
    (set_start_method method force)
    is_RuntimeError
    (fun err =>
       match err with
       | RuntimeError m => if String.eqb m MP_ERR then ret tt else raise err
       | _ => raise err
       end) ;;;
  mp_method <- get_start_method ;;
  if negb (String.eqb mp_method method)
  then raise (unexpected mp_method method)
  else ret tt.

(** The platform offers the method. *)
Definition offered (method : string) (c : context) : bool :=
  existsb (String.eqb method) (available c).

(** A Linux interpreter in which nothing has been fixed yet. *)
Definition linux : context :=
  {| available := ["fork"; "spawn"; "forkserver"];
     default_method := "fork"; actual := None |}.

End Mp.

(** ** QcodesProcess.run and get_stream_queue *)

Module Worker.

Import Streams.

(** [get_stream_queue()] over the class attribute [StreamQueue.instance],
    at clock reading [now]. *)
Definition get_stream_queue (now : float)
  : M (option StreamQueue) StreamQueue :=
  instance <- gets (fun i : option StreamQueue => i) ;;
  match instance with
  | None =>
      modify (fun _ => Some (StreamQueue_init now)) ;;;
      ret (StreamQueue_init now)
  | Some q => ret q
  end.

(** The [finally] suite of [run]. *)
Definition run_finally (stream_queue : bool) : M process unit :=
  if stream_queue then
    initial <- gets (fun p => initial_streams (sq p)) ;;
    match initial with
    | Some _ => disconnect
    | None => ret tt
    end
  else ret tt.

(** [QcodesProcess.run], for a process named [name] whose
    [stream_queue] attribute is the StreamQueue ([true]) or [None]
    ([false]).  [target] is what [super().run()] does and [print_exc ex]
    what [print_exc()] does while [ex] is being handled: both are code
    from elsewhere, acting on the store of the process. *)
Definition run (name : string) (stream_queue : bool)
    (target : M process unit) (print_exc : exn -> M process unit)
  : M process unit :=
  (if stream_queue then connect name else ret tt) ;;;
  try_finally
    (try_except target (fun _ => true) print_exc)
    (run_finally stream_queue).

(** An action leaves the connection record of the StreamQueue alone. *)
Definition keeps_connection {A} (m : M process A) : Prop :=
  forall p, initial_streams (sq (snd (m p))) = initial_streams (sq p).

(** The store after the writes [ws], each made at its own moment by its
    own writer, whether they return or raise. *)
Definition after_writes (ws : list (env * _SQWriter * string)) (p : process)
  : process :=
  fold_left
    (fun (q : process) (w : env * _SQWriter * string) =>
       let '(e, self, msg) := w in snd (write e self msg q))
    ws p.

End Worker.

(** ** Sequences of calls on a manager *)

Module Calls.

Import Server.

(** [write] called with each query of [qs], one call after the other,
    going on after a call that raises: the outcomes and the store at
    the end. *)
Fixpoint writes (qs : list (list pyval)) (c : controller)
  : list (outcome unit) * controller :=
  match qs with
  | [] => ([], c)
  | q :: qs' =>
      let (r, c1) := write q c in
      let (rs, c2) := writes qs' c1 in
      (r :: rs, c2)
  end.


End Calls.

(** ** More concrete surroundings *)

Module MoreExamples.

Import Streams Examples.

(** A moment, four seconds after the last drain, at which the buffer of
    the terminal has been detached: [print] raises a ValueError. *)
Definition e_detached : env :=
  {| datetime_now := d0; time_time := 104%float;
     fault := fun c =>
       match c with
       | CallPrint => Some (ValueError "underlying buffer has been detached")
       | _ => None
       end |}.

(** A target that prints one line on its standard output. *)
Definition hello : M process unit :=
  write e_fresh w1 "hello" ;;; write e_fresh w1 NL.

(** A target that fails. *)
Definition crash : M process unit :=
  raise (ValueError "no such instrument").

(** A [print_exc] whose output is not kept in the store. *)
Definition silent_exc (ex : exn) : M process unit := ret tt.

Import Server.


(** The manager of a worker that does not read, with two errors on the
    error channel. *)
Definition c_two_errors : controller :=
  with_self (fun m =>
    set_channels
      {| queries := _query_queue m; responses := _response_queue m;
         errors := ["first"; "second"] |} m) c_hung.

(** The manager of a worker that does not read, with no default
    timeout. *)
Definition c_patient : controller :=
  snd (ServerManager_init "srv" hung None EmptyString [] O).

End MoreExamples.

(** * Properties *)

(** ** Strings *)

Module StringFacts.

Lemma append_nil_r (s : string) : s ++ EmptyString = s.
Proof.
  induction s as [|c s IH]; simpl; [reflexivity | now rewrite IH].
Qed.

Lemma append_assoc (a b c : string) : (a ++ b) ++ c = a ++ (b ++ c).
Proof.
  induction a as [|x a IH]; simpl; [reflexivity | now rewrite IH].
Qed.

Lemma append_eq_nil (a b : string) :
  a ++ b = EmptyString -> a = EmptyString /\ b = EmptyString.
Proof.
  destruct a; simpl; [auto | discriminate].
Qed.

Lemma nonempty_true (s : string) : nonempty s = true <-> s <> EmptyString.
Proof.
  destruct s; simpl; split; intro H; try reflexivity; congruence.
Qed.

Lemma last_char_cons (a : ascii) (s : string) :
  s <> EmptyString -> last_char (String a s) = last_char s.
Proof.
  destruct s; [congruence | reflexivity].
Qed.

Lemma last_char_some (s : string) :
  s <> EmptyString -> exists c, last_char s = Some c.
Proof.
  induction s as [|a s IH]; intro H; [congruence|].
  destruct s as [|b s].
  - exists a; reflexivity.
  - destruct IH as [c Hc]; [discriminate|].
    exists c. rewrite last_char_cons by discriminate. exact Hc.
Qed.

Lemma last_char_append (a b : string) :
  b <> EmptyString -> last_char (a ++ b) = last_char b.
Proof.
  intro Hb. induction a as [|x a IH]; [reflexivity|].
  change (String x a ++ b) with (String x (a ++ b)).
  rewrite last_char_cons; [exact IH|].
  intro H. apply append_eq_nil in H. tauto.
Qed.

Lemma drop_last_cons (a : ascii) (s : string) :
  s <> EmptyString -> drop_last 1 (String a s) = String a (drop_last 1 s).
Proof.
  destruct s as [|b s]; [congruence|]. intros _.
  unfold drop_last. cbn [String.length Nat.sub].
  rewrite !Nat.sub_0_r. reflexivity.
Qed.

Lemma drop_last_single (a : ascii) :
  drop_last 1 (String a EmptyString) = EmptyString.
Proof. reflexivity. Qed.

Lemma drop_last_append (a b : string) :
  b <> EmptyString -> drop_last 1 (a ++ b) = a ++ drop_last 1 b.
Proof.
  intro Hb. induction a as [|x a IH]; [reflexivity|].
  change (String x a ++ b) with (String x (a ++ b)).
  rewrite drop_last_cons; [now rewrite IH|].
  intro H. apply append_eq_nil in H. tauto.
Qed.

(** A non-empty string is its [s[:-1]] followed by its [s[-1]]. *)
Lemma drop_last_last_char (s : string) (c : ascii) :
  last_char s = Some c -> s = drop_last 1 s ++ String c EmptyString.
Proof.
  induction s as [|a s IH]; [discriminate|].
  destruct s as [|b s].
  - simpl. intros [= ->]. reflexivity.
  - intro H. rewrite last_char_cons in H by discriminate.
    rewrite drop_last_cons by discriminate.
    simpl. f_equal. apply IH. exact H.
Qed.

Lemma contains_intro (pre sub post : string) :
  contains (pre ++ sub ++ post) sub.
Proof. exists pre, post. reflexivity. Qed.

End StringFacts.

(** ** StreamQueue.connect and StreamQueue.disconnect *)

Module ConnectSpec.

Import Streams Examples.

Lemma connect_fresh (p : process) (process_name : string) :
  initial_streams (sq p) = None ->
  connect process_name p =
    (Ret tt,
     {| sys := set_streams
                 (Writer {| stream_name := process_name |})
                 (Writer {| stream_name := process_name ++ " ERR" |})
                 (sys p);
        sq := set_initial_streams
                (Some (stdout (sys p), stderr (sys p))) (sq p);
        terminal := terminal p |}).
Proof.
  intro H. unfold connect, bind, gets. rewrite H. reflexivity.
Qed.

Lemma connect_twice (p : process) (process_name : string) :
  initial_streams (sq p) <> None ->
  connect process_name p =
    (Raise (RuntimeError "StreamQueue is already connected"), p).
Proof.
  intro H. unfold connect, bind, gets.
  destruct (initial_streams (sq p)); [reflexivity | congruence].
Qed.

Lemma disconnect_connected (p : process) (out err : stream) :
  initial_streams (sq p) = Some (out, err) ->
  disconnect p =
    (Ret tt,
     {| sys := set_streams out err (sys p);
        sq := set_initial_streams None (sq p);
        terminal := terminal p |}).
Proof.
  intro H. unfold disconnect, bind, gets. rewrite H. reflexivity.
Qed.

Lemma disconnect_fresh (p : process) :
  initial_streams (sq p) = None ->
  disconnect p = (Raise (RuntimeError "StreamQueue is not connected"), p).
Proof.
  intro H. unfold disconnect, bind, gets. rewrite H. reflexivity.
Qed.

(** C4.  In a process [p] that is not connected, [connect] records the
    current [sys.stdout] and [sys.stderr]; a later [disconnect], in any
    store [p2] that still holds that record, puts exactly these two
    handles back, and [disconnect] right after [connect] gives [p] back
    unchanged.  [connect] in a connected process [q] raises the
    already-connected error and [disconnect] in [p] raises the
    not-connected error, each leaving the whole store as it was. *)
Theorem connect_disconnect_contract
    (p q : process) (process_name : string) :
  initial_streams (sq p) = None ->
  initial_streams (sq q) <> None ->
  (exists p1,
     connect process_name p = (Ret tt, p1)
     /\ initial_streams (sq p1) = Some (stdout (sys p), stderr (sys p))
     /\ (forall p2,
           initial_streams (sq p2) = initial_streams (sq p1) ->
           exists p3,
             disconnect p2 = (Ret tt, p3)
             /\ stdout (sys p3) = stdout (sys p)
             /\ stderr (sys p3) = stderr (sys p)
             /\ initial_streams (sq p3) = None)
     /\ disconnect p1 = (Ret tt, p))
  /\ connect process_name q =
       (Raise (RuntimeError "StreamQueue is already connected"), q)
  /\ disconnect p =
       (Raise (RuntimeError "StreamQueue is not connected"), p).
Proof.
  intros Hp Hq. split; [|split].
  - eexists. split; [apply connect_fresh; exact Hp|].
    split; [reflexivity|]. split.
    + intros p2 H2. cbn in H2.
      eexists. split; [apply (disconnect_connected _ _ _ H2)|].
      repeat split.
    + erewrite disconnect_connected by reflexivity.
      destruct p as [[o e o' e'] [qu ts ls nl' ini] t].
      cbn in Hp. subst ini. reflexivity.
  - apply connect_twice; exact Hq.
  - apply disconnect_fresh; exact Hp.
Qed.

Lemma connect_disconnect_contract_witness :
  initial_streams (sq p0) = None
  /\ initial_streams (sq p1) <> None
  /\ connect "W2" p1 =
       (Raise (RuntimeError "StreamQueue is already connected"), p1)
  /\ disconnect p0 =
       (Raise (RuntimeError "StreamQueue is not connected"), p0).
Proof.
  assert (H0 : initial_streams (sq p0) = None) by reflexivity.
  assert (H1 : initial_streams (sq p1) <> None) by (vm_compute; discriminate).
  split; [exact H0|]. split; [exact H1|].
  exact (proj2 (connect_disconnect_contract p0 p1 "W2" H0 H1)).
Defined.

End ConnectSpec.

(** ** _SQWriter.write *)

Module WriterSpec.

Import Streams Design Examples StringFacts.

Ltac unfold_py :=
  unfold lib, try_except, bind, gets, modify, ret, raise, hang in *.

(** Splits on every library call and test that [write] goes through. *)
Ltac split_calls :=
  repeat match goal with
  | |- context [fault ?e ?c] => destruct (fault e c) eqn:?; cbv beta iota
  | |- context [is_ValueError ?x] =>
      destruct (is_ValueError x) eqn:?; cbv beta iota
  | |- context [if ?b && ?c then _ else _] =>
      destruct (b && c) eqn:?; cbv beta iota
  end.

(** The [try] suite never touches the [sys] module. *)
Lemma write_try_sys (e : env) (self : _SQWriter) (msg : string)
    (p p' : process) (r : outcome unit) :
  write_try e self msg p = (r, p') -> sys p' = sys p.
Proof.
  unfold write_try. unfold_py.
  destruct (nonempty msg); cbv beta iota; split_calls;
    intros [= <- <-]; reflexivity.
Qed.

(** The [try] suite never blocks. *)
Lemma write_try_returns_or_raises (e : env) (self : _SQWriter)
    (msg : string) (p : process) :
  fst (write_try e self msg p) <> Hang.
Proof.
  unfold write_try. unfold_py.
  destruct (nonempty msg); cbv beta iota; split_calls; discriminate.
Qed.

(** What [write] makes of the outcome of its [try] suite. *)
Lemma write_handler (e : env) (self : _SQWriter) (msg : string)
    (p : process) :
  write e self msg p =
    match write_try e self msg p with
    | (Raise ex, p') => (Raise ex, with_sys restore_streams p')
    | r => r
    end.
Proof.
  unfold write, try_except.
  destruct (write_try e self msg p) as [[u|ex|] p']; reflexivity.
Qed.

(** C8.  Whenever [write] raises, so whenever enqueuing or formatting
    the message failed, the store in which the exception reaches the
    caller has [sys.stdout] and [sys.stderr] bound to the original
    handles of the process, [sys.__stdout__] and [sys.__stderr__]. *)
Theorem write_failure_restores_streams
    (e : env) (self : _SQWriter) (msg : string) (p p' : process)
    (ex : exn) :
  write e self msg p = (Raise ex, p') ->
  stdout (sys p') = __stdout__ (sys p)
  /\ stderr (sys p') = __stderr__ (sys p)
  /\ __stdout__ (sys p') = __stdout__ (sys p)
  /\ __stderr__ (sys p') = __stderr__ (sys p).
Proof.
  rewrite write_handler.
  destruct (write_try e self msg p) as [[u|ex'|] p1] eqn:E;
    intros [= <- <-].
  apply write_try_sys in E.
  unfold with_sys, restore_streams, set_streams.
  cbn [sys stdout stderr __stdout__ __stderr__].
  rewrite E. repeat split.
Qed.

Lemma write_failure_restores_streams_witness :
  write e_closed w1 "hello" p1
    = (Raise (ValueError "Queue is closed"), with_sys restore_streams p1)
  /\ stdout (sys p1) = Writer w1
  /\ stdout (sys (with_sys restore_streams p1)) = __stdout__ (sys p1)
  /\ stderr (sys (with_sys restore_streams p1)) = __stderr__ (sys p1).
Proof.
  assert (H : write e_closed w1 "hello" p1
              = (Raise (ValueError "Queue is closed"),
                 with_sys restore_streams p1))
    by (vm_compute; reflexivity).
  split; [exact H|]. split; [reflexivity|].
  pose proof (write_failure_restores_streams _ _ _ _ _ _ H) as R.
  split; [apply R | apply R].
Defined.

(** A failing [put] propagates: the exception of the channel is the
    exception of [write]. *)
Lemma write_put_failure_propagates (e : env) (self : _SQWriter)
    (msg : string) (p : process) (ex : exn) :
  msg <> EmptyString ->
  fault e CallStrftime = None ->
  fault e CallPut = Some ex ->
  write e self msg p = (Raise ex, with_sys restore_streams p).
Proof.
  intros Hm Hs Hp. rewrite write_handler.
  unfold write_try. unfold_py.
  apply nonempty_true in Hm. rewrite Hm, Hs, Hp. reflexivity.
Qed.

(** A failing format of the terminal line propagates too, after the
    message has been enqueued. *)
Lemma write_format_failure_propagates (e : env) (self : _SQWriter)
    (msg : string) (p : process) (ex : exn) :
  msg <> EmptyString ->
  fault e CallStrftime = None ->
  fault e CallPut = None ->
  fault e CallFormat = Some ex ->
  PrimFloat.ltb MIN_READ_TIME
    (PrimFloat.sub (time_time e) (last_read_ts (sq p))) = true ->
  msg <> NL ->
  exists p', write e self msg p = (Raise ex, p')
    /\ stdout (sys p') = __stdout__ (sys p)
    /\ stderr (sys p') = __stderr__ (sys p).
Proof.
  intros Hm Hs Hp Hf Hage Hnl. rewrite write_handler.
  unfold write_try. unfold_py.
  apply nonempty_true in Hm. rewrite Hm, Hs, Hp. cbv beta iota.
  cbn [sq with_sq queue_put set_queue last_read_ts].
  rewrite Hage. apply String.eqb_neq in Hnl. rewrite Hnl.
  cbv beta iota delta [negb andb].
  rewrite Hf. eexists. split; [reflexivity|]. split; reflexivity.
Qed.

(** A [ValueError] of the terminal is swallowed: [write] returns and the
    message stays queued. *)
Lemma write_print_ValueError_swallowed (e : env) (self : _SQWriter)
    (msg : string) (p : process) (text : string) :
  msg <> EmptyString ->
  fault e CallStrftime = None ->
  fault e CallPut = None ->
  fault e CallFormat = None ->
  fault e CallPrint = Some (ValueError text) ->
  write e self msg p =
    (Ret tt,
     with_sq (queue_put (drop_last 3 (strftime (datetime_now e)),
                         stream_name self, msg)) p).
Proof.
  intros Hm Hs Hp Hf Hpr. rewrite write_handler.
  unfold write_try. unfold_py.
  apply nonempty_true in Hm. rewrite Hm, Hs, Hp. cbv beta iota.
  destruct (_ && _); [|reflexivity].
  rewrite Hf. cbv beta iota. rewrite Hpr. reflexivity.
Qed.

(** [strftime('%H:%M:%S.%f')[:-3]] is the time of day to the
    millisecond: the last three of the six microsecond digits go. *)
Lemma timestr_millis (d : datetime) :
  drop_last 3 (strftime d) = millis_timestr d.
Proof.
  unfold drop_last, strftime, millis_timestr, pad6, pad3, pad2.
  cbn [append String.length substring Nat.sub].
  rewrite !Z.div_div by lia.
  reflexivity.
Qed.

Lemma ends_with_nl_split (s : string) :
  ends_with_nl s = true -> s = drop_last 1 s ++ NL.
Proof.
  unfold ends_with_nl. destruct (last_char s) as [c|] eqn:E; [|discriminate].
  intro H. apply Ascii.eqb_eq in H. subst c.
  apply drop_last_last_char. exact E.
Qed.

(** C5.  [write('')] changes nothing.  For a non-empty [msg], when no
    library call fails, [write] returns after appending exactly one
    tuple to the queue: the time of day to the millisecond, the stream
    name of the writer, and [msg].  If moreover the clock reading minus
    [last_read_ts] exceeds 3 and [msg] is not the bare newline, the
    terminal receives one printed line: the text
    ["[<time> <stream_name>] <msg>"] without its trailing newline if it
    had one.  Nothing else in the store changes. *)
Theorem write_enqueues_and_falls_back
    (e : env) (self : _SQWriter) (msg : string) (p : process) :
  calm e ->
  msg <> EmptyString ->
  write e self EmptyString p = (Ret tt, p)
  /\ exists line,
       let timestr := millis_timestr (datetime_now e) in
       let full := "[" ++ timestr ++ " " ++ stream_name self ++ "] " ++ msg in
       (full = line ++ NL \/ (full = line /\ ends_with_nl line = false))
       /\ write e self msg p =
            (Ret tt,
             {| sys := sys p;
                sq := set_queue
                        (queue (sq p)
                           ++ [(timestr, stream_name self, msg)])%list
                        (sq p);
                terminal :=
                  if PrimFloat.ltb 3%float
                       (PrimFloat.sub (time_time e) (last_read_ts (sq p)))
                     && negb (String.eqb msg NL)
                  then terminal p ++ line ++ NL
                  else terminal p |}).
Proof.
  intros Hcalm Hm. split.
  - rewrite write_handler. reflexivity.
  - set (full := "[" ++ millis_timestr (datetime_now e) ++ " "
                   ++ stream_name self ++ "] " ++ msg).
    exists (if ends_with_nl full then drop_last 1 full else full).
    cbv zeta. fold full. split.
    + destruct (ends_with_nl full) eqn:E.
      * left. apply ends_with_nl_split. exact E.
      * right. split; [reflexivity | exact E].
    + rewrite write_handler. unfold write_try. unfold_py.
      apply nonempty_true in Hm. rewrite Hm.
      rewrite !Hcalm. cbv beta iota.
      cbn [sq with_sq queue_put set_queue last_read_ts].
      rewrite timestr_millis. unfold MIN_READ_TIME.
      destruct (_ && _); [|destruct p; reflexivity].
      rewrite ?Hcalm. cbv beta iota.
      unfold format_termstr. fold full.
      unfold terminal_print. cbn [sys sq terminal].
      destruct p; reflexivity.
Qed.

Lemma write_enqueues_and_falls_back_witness :
  calm e_stale
  /\ exists line,
       write e_stale w1 ("hello" ++ NL) p0 =
         (Ret tt,
          {| sys := sys p0;
             sq := set_queue [("09:05:59.001", "W1", "hello" ++ NL)] (sq p0);
             terminal := line ++ NL |}).
Proof.
  assert (Hc : calm e_stale) by (intro c; reflexivity).
  assert (Hm : "hello" ++ NL <> EmptyString) by discriminate.
  split; [exact Hc|].
  destruct (write_enqueues_and_falls_back e_stale w1 ("hello" ++ NL) p0 Hc Hm)
    as [_ [line [_ H]]].
  exists line. rewrite H. reflexivity.
Defined.

(** The same call, evaluated: the line reaches the terminal without the
    newline of the message, and [print] adds its own. *)
Example write_stale_hello :
  write e_stale w1 ("hello" ++ NL) p0 =
    (Ret tt,
     {| sys := sys p0;
        sq := set_queue [("09:05:59.001", "W1", "hello" ++ NL)] (sq p0);
        terminal := "[09:05:59.001 W1] hello" ++ NL |}).
Proof. vm_compute. reflexivity. Qed.

(** One second after a drain nothing is printed; the message is queued
    all the same. *)
Example write_fresh_hello :
  write e_fresh w1 ("hello" ++ NL) p0 =
    (Ret tt,
     {| sys := sys p0;
        sq := set_queue [("09:05:59.001", "W1", "hello" ++ NL)] (sq p0);
        terminal := EmptyString |}).
Proof. vm_compute. reflexivity. Qed.

(** Every tuple that [write] enqueues carries a non-empty text, so the
    queue that [get] drains holds no empty message. *)
Lemma write_keeps_texts_nonempty (e : env) (self : _SQWriter)
    (msg : string) (p p' : process) (r : outcome unit) :
  texts_nonempty (queue (sq p)) ->
  write e self msg p = (r, p') ->
  texts_nonempty (queue (sq p')).
Proof.
  intros Hq. rewrite write_handler. unfold write_try. unfold_py.
  destruct (nonempty msg) eqn:Hm; cbv beta iota.
  - apply nonempty_true in Hm.
    assert (Hq' : forall t,
      texts_nonempty (queue (sq p) ++ [(t, stream_name self, msg)])%list).
    { intro t. apply Forall_app. split; [exact Hq|].
      constructor; [exact Hm | constructor]. }
    split_calls; intros [= <- <-]; cbn [sq with_sys with_sq queue_put
      set_queue queue terminal_print]; solve [exact Hq | apply Hq'].
  - intros [= <- <-]. exact Hq.
Qed.

End WriterSpec.

(** ** StreamQueue.get *)

Module GetSpec.

Import Streams Design Examples StringFacts.

(** The slice-and-replace expression of [get] is the coalesced text. *)
Lemma replace_drop_last_coalesced (line_head msg : string) (c : ascii) :
  last_char msg = Some c ->
  replace_char nl (NL ++ line_head) (drop_last 1 msg) ++ String c EmptyString
    = coalesced_text line_head msg.
Proof.
  revert c. induction msg as [|a s IH]; intros c H; [discriminate|].
  destruct s as [|b s'].
  - cbn in H. injection H as ->. reflexivity.
  - rewrite last_char_cons in H by discriminate.
    rewrite drop_last_cons by discriminate.
    cbn [replace_char]. rewrite append_assoc.
    rewrite (IH c H). reflexivity.
Qed.

Lemma body_part_coalesced (line_head msg : string) :
  msg <> EmptyString ->
  body_part line_head msg = Some (coalesced_text line_head msg).
Proof.
  intro Hm. unfold body_part.
  destruct (last_char_some msg Hm) as [c Hc]. rewrite Hc.
  f_equal. apply replace_drop_last_coalesced. exact Hc.
Qed.

Lemma head_part_coalesced (b : bool) (last : option string)
    (name line_head : string) :
  head_part b last name line_head = coalesced_head b last name line_head.
Proof.
  unfold head_part, coalesced_head, differs.
  destruct b; [reflexivity|].
  destruct last as [l|]; [|reflexivity].
  rewrite String.eqb_sym. destruct (String.eqb l name); reflexivity.
Qed.

Lemma coalesced_text_cons (line_head : string) (a : ascii) (s : string) :
  s <> EmptyString ->
  coalesced_text line_head (String a s) =
    (if Ascii.eqb a nl then NL ++ line_head else String a EmptyString)
      ++ coalesced_text line_head s.
Proof.
  destruct s; [congruence | reflexivity].
Qed.

Lemma coalesced_nonempty (line_head text : string) :
  text <> EmptyString -> coalesced_text line_head text <> EmptyString.
Proof.
  destruct text as [|a s]; [congruence|]. intros _.
  destruct s as [|b s']; [discriminate|].
  rewrite coalesced_text_cons by discriminate.
  destruct (Ascii.eqb a nl); discriminate.
Qed.

(** The coalesced text ends as the message does. *)
Lemma last_char_coalesced (line_head text : string) :
  last_char (coalesced_text line_head text) = last_char text.
Proof.
  induction text as [|a s IH]; [reflexivity|].
  destruct s as [|b s']; [reflexivity|].
  rewrite last_char_cons by discriminate.
  rewrite coalesced_text_cons by discriminate.
  rewrite last_char_append; [exact IH|].
  apply coalesced_nonempty. discriminate.
Qed.

(** The loop appends the report of the pending messages to [out]. *)
Lemma get_loop_report (pending : list msgtuple) :
  texts_nonempty pending ->
  forall (out : string) (p : process),
    get_loop pending out p =
      (Ret (out ++ report (_on_new_line (sq p)) (_last_stream (sq p)) pending),
       with_sq (loop_end pending) p).
Proof.
  induction 1 as [|[[timestr name] text] rest Ht Hrest IH]; intros out p.
  - cbn. rewrite append_nil_r. destruct p as [s [q t l b i] tm]. reflexivity.
  - cbn in Ht. cbn [get_loop]. unfold bind at 1. unfold modify at 1.
    unfold bind at 1. unfold gets at 1.
    unfold bind at 1. unfold gets at 1.
    rewrite (body_part_coalesced _ _ Ht).
    unfold bind at 1. unfold modify at 1.
    rewrite IH. cbn [sq with_sq set_cursor set_queue _on_new_line _last_stream].
    rewrite head_part_coalesced. cbn [report].
    unfold format_line_head. rewrite !append_assoc.
    f_equal. unfold with_sq, loop_end. cbn.
    destruct rest; reflexivity.
Qed.

(** The flag that [get] keeps says how the reported text ends. *)
Lemma report_ends (msgs : list msgtuple) :
  texts_nonempty msgs -> msgs <> [] ->
  forall (out : string) (b : bool) (last : option string),
    ends_with_nl (out ++ report b last msgs) = fst (cursor_after b last msgs).
Proof.
  induction 1 as [|[[timestr name] text] rest Ht Hrest IH];
    intros Hne out b last; [congruence|].
  cbn in Ht. cbn [report cursor_after].
  destruct rest as [|m rest'].
  - cbn [report cursor_after fst]. rewrite append_nil_r.
    unfold ends_with_nl.
    rewrite <- !append_assoc.
    rewrite last_char_append by (apply coalesced_nonempty; exact Ht).
    rewrite last_char_coalesced. reflexivity.
  - rewrite <- !append_assoc. apply IH. discriminate.
Qed.

(** C6.  When every queued text is non-empty, as every text that a
    writer enqueues is, [get] returns the report of the queued messages
    in the design's words: the line-head at a line boundary, nothing for
    the same stream in mid-line, a forced newline and the line-head for
    another stream in mid-line, and the line-head again after every
    newline of a text but its last character.  It empties the queue and
    sets [last_read_ts] to the clock reading, also when the queue was
    empty; and after a non-empty drain the kept flag tells whether the
    returned text ends with a newline. *)
Theorem get_coalesces (e : env) (p : process) :
  texts_nonempty (queue (sq p)) ->
  let b := _on_new_line (sq p) in
  let last := _last_stream (sq p) in
  let msgs := queue (sq p) in
  get e p =
    (Ret (report b last msgs),
     {| sys := sys p;
        sq := {| queue := [];
                 last_read_ts := time_time e;
                 _last_stream := snd (cursor_after b last msgs);
                 _on_new_line := fst (cursor_after b last msgs);
                 initial_streams := initial_streams (sq p) |};
        terminal := terminal p |})
  /\ (msgs <> [] ->
      fst (cursor_after b last msgs) = ends_with_nl (report b last msgs)).
Proof.
  intros Hq b last msgs. split.
  - unfold get. unfold bind at 1. unfold gets at 1.
    unfold bind at 1. rewrite (get_loop_report _ Hq).
    unfold bind, modify, ret. cbv beta iota.
    subst msgs b last. unfold with_sq, loop_end, set_last_read_ts.
    cbn [sys sq terminal queue last_read_ts _last_stream _on_new_line
         initial_streams].
    destruct (queue (sq p)); reflexivity.
  - intro Hne. symmetry.
    apply (report_ends msgs Hq Hne EmptyString b last).
Qed.

Lemma get_coalesces_witness :
  texts_nonempty (queue (sq p2))
  /\ fst (get e_stale p2) =
       Ret ("[09:05:59.001 W1] hello" ++ NL ++ "[09:05:59.001 W1 ERR] world")
  /\ last_read_ts (sq (snd (get e_stale p2))) = 104%float
  /\ _on_new_line (sq (snd (get e_stale p2))) = false.
Proof.
  assert (H : texts_nonempty (queue (sq p2)))
    by (vm_compute; repeat constructor; discriminate).
  split; [exact H|].
  destruct (get_coalesces e_stale p2 H) as [E _].
  rewrite E. repeat split.
Defined.

(** An empty queue still moves [last_read_ts]. *)
Example get_nothing :
  get e_stale p0 =
    (Ret EmptyString,
     with_sq (set_last_read_ts 104%float) p0).
Proof. reflexivity. Qed.

(** A message with an empty text, which no writer enqueues, would stop
    the drain with an IndexError. *)
Example get_empty_text :
  fst (get e_stale (with_sq (set_queue [("09:05:59.001", "W1", "")]) p0))
    = Raise (IndexError "string index out of range").
Proof. reflexivity. Qed.

(** *** The coalesced text, line by line *)

Lemma coalesced_nl_free (line_head l : string) :
  nl_free l -> coalesced_text line_head l = l.
Proof.
  unfold nl_free. induction l as [|a s IH]; [reflexivity|].
  cbn [mem_char]. intro H. apply orb_false_iff in H. destruct H as [Ha Hs].
  destruct s as [|b s']; [reflexivity|].
  rewrite coalesced_text_cons by discriminate.
  rewrite Ha, (IH Hs). reflexivity.
Qed.

(** A newline in the middle of a text is followed by the line-head. *)
Lemma coalesced_embedded_nl (line_head l rest : string) :
  nl_free l -> rest <> EmptyString ->
  coalesced_text line_head (l ++ NL ++ rest) =
    l ++ NL ++ line_head ++ coalesced_text line_head rest.
Proof.
  unfold nl_free. intros Hl Hrest. induction l as [|a s IH].
  - cbn [append NL]. rewrite coalesced_text_cons by exact Hrest.
    rewrite Ascii.eqb_refl. rewrite append_assoc. reflexivity.
  - cbn [mem_char] in Hl. apply orb_false_iff in Hl. destruct Hl as [Ha Hs].
    change (String a s ++ NL ++ rest) with (String a (s ++ NL ++ rest)).
    rewrite coalesced_text_cons.
    + rewrite Ha, (IH Hs). reflexivity.
    + intro H. apply append_eq_nil in H. destruct H as [_ H]. discriminate.
Qed.

(** A newline that ends the text is kept as it is. *)
Lemma coalesced_final_nl (line_head l : string) :
  nl_free l -> coalesced_text line_head (l ++ NL) = l ++ NL.
Proof.
  unfold nl_free. induction l as [|a s IH]; [reflexivity|].
  cbn [mem_char]. intro H. apply orb_false_iff in H. destruct H as [Ha Hs].
  change (String a s ++ NL) with (String a (s ++ NL)).
  rewrite coalesced_text_cons.
  - rewrite Ha, (IH Hs). reflexivity.
  - intro H. apply append_eq_nil in H. destruct H as [_ H]. discriminate.
Qed.

(** A text of several lines that ends with a newline: the line-head is
    repeated between the lines, and not after the last one. *)
Lemma coalesced_lines_terminated (line_head : string) (lines : list string) :
  Forall nl_free lines ->
  coalesced_text line_head (join NL lines ++ NL) =
    join (NL ++ line_head) lines ++ NL.
Proof.
  induction 1 as [|l ls Hl Hls IH]; [reflexivity|].
  destruct ls as [|l2 ls'].
  - apply coalesced_final_nl. exact Hl.
  - change (join NL (l :: l2 :: ls')) with (l ++ NL ++ join NL (l2 :: ls')).
    change (join (NL ++ line_head) (l :: l2 :: ls'))
      with (l ++ (NL ++ line_head) ++ join (NL ++ line_head) (l2 :: ls')).
    rewrite !append_assoc.
    rewrite coalesced_embedded_nl.
    + rewrite IH. reflexivity.
    + exact Hl.
    + intro H. apply append_eq_nil in H. destruct H as [_ H]. discriminate.
Qed.

(** A text of several lines whose last line is unfinished. *)
Lemma coalesced_lines_unfinished (line_head : string) (lines : list string) :
  Forall nl_free lines ->
  List.last lines EmptyString <> EmptyString ->
  coalesced_text line_head (join NL lines) = join (NL ++ line_head) lines.
Proof.
  induction 1 as [|l ls Hl Hls IH]; [reflexivity|]. intro Hlast.
  destruct ls as [|l2 ls'].
  - apply coalesced_nl_free. exact Hl.
  - change (join NL (l :: l2 :: ls')) with (l ++ NL ++ join NL (l2 :: ls')).
    change (join (NL ++ line_head) (l :: l2 :: ls'))
      with (l ++ (NL ++ line_head) ++ join (NL ++ line_head) (l2 :: ls')).
    change (List.last (l :: l2 :: ls') EmptyString)
      with (List.last (l2 :: ls') EmptyString) in Hlast.
    rewrite !append_assoc.
    rewrite coalesced_embedded_nl.
    + rewrite (IH Hlast). reflexivity.
    + exact Hl.
    + intro H. rewrite H in IH. specialize (IH Hlast).
      cbn in IH. clear - IH Hlast.
      destruct ls' as [|l3 ls''].
      * cbn in IH, Hlast. congruence.
      * change (join (NL ++ line_head) (l2 :: l3 :: ls''))
          with (l2 ++ (NL ++ line_head)
                  ++ join (NL ++ line_head) (l3 :: ls'')) in IH.
        symmetry in IH. apply append_eq_nil in IH.
        destruct IH as [_ IH]. discriminate.
Qed.

End GetSpec.

(** ** ServerManager *)

Module ServerSpec.

Import Server Protocol Examples StringFacts.

(** The worker can change the channels and its own status, and nothing
    else of the manager. *)
Lemma worker_reacts_keeps (t : timeout_val) (m : ServerManager) :
  name (worker_reacts t m) = name m
  /\ query_lock (worker_reacts t m) = query_lock m
  /\ query_timeout (worker_reacts t m) = query_timeout m
  /\ pid (_server (worker_reacts t m)) = pid (_server m).
Proof.
  unfold worker_reacts.
  destruct (proc_status (_server m)); try (repeat split; reflexivity).
  destruct (serve _ _ _) as [ch s]. repeat split.
Qed.

Ltac unfold_methods :=
  unfold ask, write, with_query_lock, query_put, response_get,
    _check_for_errors, error_empty, print_stderr, emit, try_finally,
    try_except, bind, gets, modify, ret, raise, hang.

Ltac unfold_stages :=
  unfold released, reported, took_response, waited, logged, with_self,
    error_report.

Ltac simpl_store :=
  cbn [self stderr_text log next_pid name _query_queue _response_queue
       _error_queue _server_class query_lock query_timeout _server
       set_channels set_lock set_server queries responses errors
       negb is_Empty hd tl Nat.pred].

Ltac norm_log := rewrite <- ?app_assoc; cbn [app].

(** [ask], evaluated: what it returns and the store it leaves, by what
    the channels hold when the wait ends. *)
Lemma ask_eval (c : controller) (query : list pyval) (timeout : timeout_val) :
  let t := effective_timeout timeout c in
  let c1 := waited query t c in
  ask query timeout c =
    match _response_queue (self c1) with
    | r :: _ =>
        match _error_queue (self c1) with
        | [] => (Ret r, released (took_response c1))
        | _ :: _ =>
            (Raise (RuntimeError (errhead_of (name (self c)))),
             released (reported (took_response c1)))
        end
    | [] =>
        match t with
        | None => (Hang, c1)
        | Some _ =>
            match _error_queue (self c1) with
            | [] => (Raise Empty, released c1)
            | _ :: _ =>
                (Raise (RuntimeError (errhead_of (name (self c)))),
                 released (reported c1))
            end
        end
    end.
Proof.
  intros t c1. subst c1. unfold effective_timeout in t.
  unfold_methods. unfold_stages. simpl_store. fold t.
  set (m1 := worker_reacts t _).
  destruct (worker_reacts_keeps t
    (set_channels
       {| queries := _query_queue (self c) ++ [query];
          responses := _response_queue (self c);
          errors := _error_queue (self c) |}
       (set_lock (S (query_lock (self c))) (self c)))) as [Hn _].
  fold m1 in Hn. cbn [name set_channels set_lock] in Hn.
  destruct (_response_queue m1) as [|r rest] eqn:Er; simpl_store.
  - destruct t as [n|]; simpl_store.
    + destruct (_error_queue m1) as [|err errs] eqn:Ee; simpl_store;
        repeat (rewrite ?Ee, ?Er; cbv beta iota; simpl_store); rewrite ?Hn;
        norm_log; reflexivity.
    + norm_log. reflexivity.
  - destruct (_error_queue m1) as [|err errs] eqn:Ee; simpl_store;
      repeat (rewrite ?Ee, ?Er; cbv beta iota; simpl_store); rewrite ?Hn;
        norm_log; reflexivity.
Qed.

(** Every [ask] takes the lock, puts the query and waits with the
    effective timeout, in this order. *)
Lemma ask_log (c : controller) (query : list pyval) (timeout : timeout_val) :
  exists rest,
    log (snd (ask query timeout c)) =
      (log c ++ [EvAcquire; EvPut query; EvGet (effective_timeout timeout c)]
         ++ rest)%list.
Proof.
  rewrite ask_eval.
  destruct (_response_queue _); [destruct (effective_timeout timeout c)|];
    try destruct (_error_queue _);
    unfold_stages; cbn [snd log]; norm_log; eexists; reflexivity.
Qed.

(** [ask] leaves the name, the default timeout and the process id of
    the manager alone. *)
Lemma ask_keeps (c : controller) (query : list pyval) (timeout : timeout_val) :
  name (self (snd (ask query timeout c))) = name (self c)
  /\ query_timeout (self (snd (ask query timeout c))) = query_timeout (self c)
  /\ pid (_server (self (snd (ask query timeout c)))) = pid (_server (self c)).
Proof.
  rewrite ask_eval.
  destruct (_response_queue _); [destruct (effective_timeout timeout c)|];
    try destruct (_error_queue _);
    unfold_stages; cbn [snd self]; simpl_store;
    match goal with
    | |- context [worker_reacts ?t ?m] =>
        destruct (worker_reacts_keeps t m) as (Hn & _ & Hq & Hp);
        rewrite Hn, Hq, Hp
    end; simpl_store; repeat split.
Qed.


(** *** ask *)



(** A worker that echoes: the response is returned. *)
Example ask_echo :
  fst (ask [PStr "x"] None c_echo) = Ret (PStr "x").
Proof. reflexivity. Qed.

(** A worker that does not answer: the timeout is raised as it is. *)
Example ask_hung :
  fst (ask [PStr "x"] (Some (NFloat 0.5%float)) c_hung) = Raise Empty.
Proof. reflexivity. Qed.

(** A worker that reports an error: that error is raised. *)
Example ask_failing :
  fst (ask [PStr "x"] None c_failing)
    = Raise (RuntimeError "*** error on srv ***").
Proof. reflexivity. Qed.

(** C9.  A timeout argument that is falsy, such as [0], [0.0] or
    [False], is replaced by [query_timeout], as a missing one is: the
    call does what [ask] without a timeout does, and its wait on the
    response channel is made with [query_timeout]. *)
Theorem ask_falsy_timeout_waits_default (c : controller)
    (query : list pyval) (timeout : timeout_val) :
  truthy timeout = false ->
  effective_timeout timeout c = query_timeout (self c)
  /\ ask query timeout c = ask query None c
  /\ exists rest,
       log (snd (ask query timeout c)) =
         (log c ++ [EvAcquire; EvPut query; EvGet (query_timeout (self c))]
            ++ rest)%list.
Proof.
  intro H.
  assert (E : effective_timeout timeout c = query_timeout (self c))
    by (unfold effective_timeout, py_or; rewrite H; reflexivity).
  split; [exact E|]. split.
  - rewrite !ask_eval. rewrite E. reflexivity.
  - rewrite <- E. apply ask_log.
Qed.

Lemma ask_falsy_timeout_waits_default_witness :
  truthy (Some (NInt 0)) = false
  /\ effective_timeout (Some (NInt 0)) c_hung = Some (NInt 2)
  /\ ask [PStr "x"] (Some (NInt 0)) c_hung = ask [PStr "x"] None c_hung.
Proof.
  assert (H : truthy (Some (NInt 0)) = false) by reflexivity.
  pose proof
    (ask_falsy_timeout_waits_default c_hung [PStr "x"] (Some (NInt 0)) H)
    as (E & A & _).
  split; [exact H|]. split; [exact E | exact A].
Defined.

(** The other falsy numbers. *)
Example falsy_timeouts :
  truthy None = false
  /\ truthy (Some (NBool false)) = false
  /\ truthy (Some (NFloat 0%float)) = false
  /\ truthy (Some (NFloat (-0)%float)) = false
  /\ truthy (Some (NFloat 0.5%float)) = true.
Proof. repeat split. Qed.



(** The branch of [ask] that would read the unbound [res] is never
    taken. *)
Lemma ask_never_reads_unbound_res (c : controller) (query : list pyval)
    (timeout : timeout_val) (text : string) :
  fst (ask query timeout c) <> Raise (UnboundLocalError text).
Proof.
  rewrite ask_eval.
  destruct (_response_queue _); [destruct (effective_timeout timeout c)|];
    try destruct (_error_queue _); cbn [fst]; discriminate.
Qed.

(** *** write *)

Lemma write_eval (c : controller) (query : list pyval) :
  write query c =
    match _error_queue (self c) with
    | [] => (Ret tt, enqueued query c)
    | _ :: _ =>
        (Raise (RuntimeError (errhead_of (name (self c)))),
         reported (enqueued query c))
    end.
Proof.
  unfold_methods. unfold_stages. unfold enqueued. simpl_store.
  destruct (_error_queue (self c)) as [|err errs] eqn:Ee;
    repeat (rewrite ?Ee; cbv beta iota; simpl_store);
    norm_log; reflexivity.
Qed.

(** C3.  [write] appends the arguments as one tuple to the query
    channel.  With an empty error channel it then returns, and nothing
    else has changed.  With a pending error it takes exactly the oldest
    message off the error channel, prints the header, an empty line and
    that message on [sys.stderr], and raises a RuntimeError whose text
    is the header; the header contains the name of the manager. *)
Theorem write_contract (c : controller) (query : list pyval) :
  _query_queue (self (snd (write query c)))
    = (_query_queue (self c) ++ [query])%list
  /\ _response_queue (self (snd (write query c))) = _response_queue (self c)
  /\ match _error_queue (self c) with
     | [] =>
         write query c = (Ret tt, enqueued query c)
         /\ stderr_text (snd (write query c)) = stderr_text c
         /\ _error_queue (self (snd (write query c))) = []
     | err :: errs =>
         fst (write query c)
           = Raise (RuntimeError (errhead_of (name (self c))))
         /\ _error_queue (self (snd (write query c))) = errs
         /\ stderr_text (snd (write query c))
            = stderr_text c
                ++ (errhead_of (name (self c)) ++ NL ++ NL ++ err) ++ NL
         /\ log (snd (write query c))
            = (log c ++ [EvPut query; EvErrorGet;
                         EvPrint (errhead_of (name (self c))
                                    ++ NL ++ NL ++ err)])%list
     end
  /\ contains (errhead_of (name (self c))) (name (self c)).
Proof.
  rewrite write_eval.
  destruct (_error_queue (self c)) as [|err errs] eqn:Ee;
    unfold_stages; unfold enqueued; cbn [fst snd self stderr_text log];
    simpl_store; rewrite ?Ee; simpl_store; norm_log;
    repeat split; apply contains_intro.
Qed.

(** The error that a worker left on the channel surfaces at the next
    [write]. *)
Example write_after_error :
  let c := snd (ask [PStr "x"] (Some (NInt 1)) c_sloppy) in
  let c := with_self (fun m =>
             set_channels
               {| queries := _query_queue m; responses := _response_queue m;
                  errors := ["Traceback: late"] |} m) c in
  fst (write [PStr "y"] c) = Raise (RuntimeError "*** error on srv ***").
Proof. reflexivity. Qed.

(** *** halt *)

Lemma join_eval (c : controller) :
  join c =
    match proc_status (_server (self c)) with
    | Running => (Hang, logged [EvJoin (pid (_server (self c)))] c)
    | _ => (Ret tt, joined c)
    end.
Proof.
  unfold join, emit, bind, gets, modify, hang, joined, logged, with_self.
  destruct (proc_status (_server (self c))); reflexivity.
Qed.

Lemma halt_eval (c : controller) :
  halt c =
    match proc_status (_server (self c)) with
    | Exited => join (logged [EvIsAlive] c)
    | _ =>
        match ask [PStr "halt"] None (logged [EvIsAlive] c) with
        | (Ret _, c1) => join c1
        | (Raise e, c1) => (Raise e, c1)
        | (Hang, c1) => (Hang, c1)
        end
    end.
Proof.
  unfold halt, is_alive, emit. unfold bind at 1 2 3. unfold modify, gets.
  cbn [self logged].
  change {| self := self c; stderr_text := stderr_text c;
            log := (log c ++ [EvIsAlive])%list; next_pid := next_pid c |}
    with (logged [EvIsAlive] c).
  destruct (proc_status (_server (self c))); try reflexivity;
    unfold bind, ret;
    destruct (ask [PStr "halt"] None (logged [EvIsAlive] c)) as [[r|e|] c1];
    reflexivity.
Qed.

(** The design's statement of [halt] fails for a live worker that does
    not answer: the [ask] raises, and the process is never joined. *)
Lemma halt_as_stated_fails : ~ halt_as_stated c_hung.
Proof.
  unfold halt_as_stated. vm_compute. discriminate.
Qed.

(** C7, amended.  If the worker process has exited, [halt] does not
    ask: it joins the dead process and returns, channels untouched.  If
    the worker process is alive, the query ["halt"] is sent through
    [ask]; when that [ask] returns, the process is then joined, and
    [halt] returns only once it has exited; when that [ask] raises, the
    exception leaves [halt] and the process is not joined. *)
Theorem halt_contract (c : controller) :
  let p := _server (self c) in
  let c0 := logged [EvIsAlive] c in
  match proc_status p with
  | Exited =>
      fst (halt c) = Ret tt
      /\ log (snd (halt c)) = (log c ++ [EvIsAlive; EvJoin (pid p)])%list
      /\ get_channels (self (snd (halt c))) = get_channels (self c)
      /\ proc_status (_server (self (snd (halt c)))) = Exited
  | _ =>
      match ask [PStr "halt"] None c0 with
      | (Ret _, c1) =>
          log (snd (halt c)) = (log c1 ++ [EvJoin (pid p)])%list
          /\ (fst (halt c) = Ret tt \/ fst (halt c) = Hang)
          /\ (fst (halt c) = Ret tt ->
              proc_status (_server (self (snd (halt c)))) = Exited)
      | (Raise e, c1) => halt c = (Raise e, c1)
      | (Hang, c1) => halt c = (Hang, c1)
      end
  end.
Proof.
  intros p c0. subst p c0. rewrite halt_eval.
  destruct (proc_status (_server (self c))) eqn:Es.
  1, 2:
    pose proof (ask_keeps (logged [EvIsAlive] c) [PStr "halt"] None)
      as (_ & _ & Hp);
    destruct (ask [PStr "halt"] None (logged [EvIsAlive] c)) as [[r|e|] c1];
    try reflexivity;
    cbn [snd self logged] in Hp; rewrite join_eval, <- Hp;
    destruct (proc_status (_server (self c1)));
    unfold joined, logged, with_self; cbn [fst snd log self];
    simpl_store;
    (split; [reflexivity|]); (split; [auto|]);
    try reflexivity; try discriminate.
  rewrite join_eval. cbn [self logged]. rewrite Es.
  unfold joined, logged, with_self. cbn [fst snd log self]. simpl_store.
  norm_log. repeat split.
Qed.

(** A worker that honours ["halt"] is asked and then joined. *)
Example halt_echo :
  fst (halt c_echo) = Ret tt
  /\ log (snd (halt c_echo)) =
       [EvStart 0 "srv"; EvIsAlive; EvAcquire; EvPut [PStr "halt"];
        EvGet (Some (NInt 2)); EvRelease; EvJoin 0]
  /\ proc_status (_server (self (snd (halt c_echo)))) = Exited.
Proof. repeat split. Qed.

(** A worker that does not answer is asked and not joined. *)
Example halt_hung :
  fst (halt c_hung) = Raise Empty
  /\ log (snd (halt c_hung)) =
       [EvStart 0 "srv"; EvIsAlive; EvAcquire; EvPut [PStr "halt"];
        EvGet (Some (NInt 2)); EvRelease].
Proof. repeat split. Qed.

(** A dead worker is joined and not asked. *)
Example halt_dead :
  fst (halt c_dead) = Ret tt
  /\ log (snd (halt c_dead)) = [EvStart 0 "srv"; EvIsAlive; EvJoin 0].
Proof. repeat split. Qed.

(** *** restart *)

(** With its argument, [_start_server] binds [_server] to a new, running
    process of that name and the same server behaviour: this is the call
    that [__init__] makes. *)
Lemma start_server_launches (c : controller) (pname : string) :
  _start_server (Some pname) c =
    (Ret tt,
     {| self := set_server
                  {| pid := next_pid c; proc_name := pname;
                     target := _server_class (self c);
                     proc_status := Running |} (self c);
        stderr_text := stderr_text c;
        log := (log c ++ [EvStart (next_pid c) pname])%list;
        next_pid := S (next_pid c) |}).
Proof. reflexivity. Qed.

Lemma restart_eval (c : controller) :
  restart c =
    match halt c with
    | (Ret _, c') =>
        (Raise (TypeError
           "_start_server() missing 1 required positional argument: 'name'"),
         c')
    | (Raise e, c') => (Raise e, c')
    | (Hang, c') => (Hang, c')
    end.
Proof.
  unfold restart, bind, _start_server, raise.
  destruct (halt c) as [[u|e|] c']; reflexivity.
Qed.

(** C1.  [restart] does what [halt] does and then calls
    [_start_server] without the name it requires: when [halt] returns,
    [restart] raises a TypeError in the store that [halt] left, so that
    no process is started and [_server] stays the halted one; when
    [halt] does not return, neither does [restart]. *)
Theorem restart_raises_instead_of_relaunching (c : controller) :
  restart c =
    match halt c with
    | (Ret _, c') =>
        (Raise (TypeError
           "_start_server() missing 1 required positional argument: 'name'"),
         c')
    | (Raise e, c') => (Raise e, c')
    | (Hang, c') => (Hang, c')
    end.
Proof.
  unfold restart, bind, _start_server, raise.
  destruct (halt c) as [[u|e|] c']; reflexivity.
Qed.

(** After [restart] on a manager whose worker honours ["halt"], no
    worker is alive. *)
Example restart_echo :
  fst (restart c_echo) =
    Raise (TypeError
      "_start_server() missing 1 required positional argument: 'name'")
  /\ proc_status (_server (self (snd (restart c_echo)))) = Exited
  /\ pid (_server (self (snd (restart c_echo)))) = pid (_server (self c_echo))
  /\ log (snd (restart c_echo)) = log (snd (halt c_echo)).
Proof. vm_compute. repeat split. Qed.

(** No [restart] returns. *)
Lemma restart_never_returns (c : controller) :
  fst (restart c) <> Ret tt.
Proof.
  rewrite restart_eval.
  destruct (halt c) as [[u|e|] c']; discriminate.
Qed.

End ServerSpec.

(** ** Writers and the drain together *)

Module StreamsMore.

Import Streams Design Examples MoreExamples StringFacts.
Import ConnectSpec WriterSpec GetSpec Worker.

(** The [try] suite of [write] changes the queue and the terminal, and
    nothing else of the StreamQueue. *)
Lemma write_try_frame (e : env) (self : _SQWriter) (msg : string)
    (p : process) :
  let p' := snd (write_try e self msg p) in
  initial_streams (sq p') = initial_streams (sq p)
  /\ last_read_ts (sq p') = last_read_ts (sq p)
  /\ _on_new_line (sq p') = _on_new_line (sq p)
  /\ _last_stream (sq p') = _last_stream (sq p).
Proof.
  unfold write_try. unfold_py.
  destruct (nonempty msg); cbv beta iota; split_calls;
    cbn; repeat split.
Qed.

Lemma write_frame (e : env) (self : _SQWriter) (msg : string) (p : process) :
  let p' := snd (write e self msg p) in
  initial_streams (sq p') = initial_streams (sq p)
  /\ last_read_ts (sq p') = last_read_ts (sq p)
  /\ _on_new_line (sq p') = _on_new_line (sq p)
  /\ _last_stream (sq p') = _last_stream (sq p).
Proof.
  rewrite write_handler.
  pose proof (write_try_frame e self msg p) as H.
  destruct (write_try e self msg p) as [[u|ex|] p1]; exact H.
Qed.


(** [get], evaluated on a queue of non-empty texts. *)
Lemma get_eval (e : env) (p : process) :
  texts_nonempty (queue (sq p)) ->
  get e p =
    (Ret (report (_on_new_line (sq p)) (_last_stream (sq p)) (queue (sq p))),
     with_sq (set_last_read_ts (time_time e))
       (with_sq (loop_end (queue (sq p))) p)).
Proof.
  intro Hq. unfold get. unfold bind at 1. unfold gets at 1.
  unfold bind at 1. rewrite (get_loop_report _ Hq).
  reflexivity.
Qed.




(** The report of two batches is the report of the first followed by the
    report of the second from where the first one stopped. *)
Lemma report_app (m1 m2 : list msgtuple) :
  forall (b : bool) (last : option string),
    report b last (m1 ++ m2)%list =
      report b last m1
        ++ report (fst (cursor_after b last m1)) (snd (cursor_after b last m1))
             m2.
Proof.
  induction m1 as [|[[t n] x] m1 IH]; intros b last; [reflexivity|].
  cbn [app report cursor_after]. rewrite IH, !append_assoc. reflexivity.
Qed.

(** X6.  Draining twice gives the text that draining once would have
    given: if [get] returns [s1] for the messages [m1], and the next
    [get], after the messages [m2] have arrived, returns [s2], then
    [s1 ++ s2] is what one [get] returns for [m1] followed by [m2]. *)
Theorem get_in_two_steps (e1 e2 e : env) (p : process)
    (m1 m2 : list msgtuple) :
  texts_nonempty m1 -> texts_nonempty m2 ->
  let first := get e1 (with_sq (set_queue m1) p) in
  let second := get e2 (with_sq (set_queue m2) (snd first)) in
  exists s1 s2,
    fst first = Ret s1
    /\ fst second = Ret s2
    /\ fst (get e (with_sq (set_queue (m1 ++ m2)%list) p)) = Ret (s1 ++ s2).
Proof.
  intros H1 H2 first second. subst first second.
  rewrite (get_eval e1) by exact H1.
  rewrite (get_eval e2) by exact H2.
  rewrite (get_eval e) by (apply Forall_app; split; assumption).
  cbn [fst snd sq with_sq set_queue set_last_read_ts loop_end queue
       _on_new_line _last_stream].
  eexists. eexists. split; [reflexivity|]. split; [reflexivity|].
  rewrite report_app. reflexivity.
Qed.

Lemma get_in_two_steps_witness :
  texts_nonempty [("09:05:59.001", "W1", "hel")]
  /\ exists s1 s2,
       fst (get e_fresh
              (with_sq (set_queue [("09:05:59.001", "W1", "hel")]) p0))
         = Ret s1
       /\ fst (get e_stale
                (with_sq (set_queue [("09:05:59.002", "W1", "lo" ++ NL)])
                   (snd (get e_fresh
                           (with_sq (set_queue [("09:05:59.001", "W1", "hel")])
                              p0)))))
          = Ret s2
       /\ s1 ++ s2 = "[09:05:59.001 W1] hello" ++ NL.
Proof.
  assert (H1 : texts_nonempty [("09:05:59.001", "W1", "hel")])
    by (repeat constructor; discriminate).
  assert (H2 : texts_nonempty [("09:05:59.002", "W1", "lo" ++ NL)])
    by (repeat constructor; discriminate).
  split; [exact H1|].
  destruct (get_in_two_steps e_fresh e_stale e_stale p0 _ _ H1 H2)
    as (s1 & s2 & E1 & E2 & E).
  exists s1, s2. split; [exact E1|]. split; [exact E2|].
  cbv zeta in E. vm_compute in E. injection E as E. symmetry. exact E.
Defined.

Lemma after_writes_texts_nonempty (ws : list (env * _SQWriter * string)) :
  forall p, texts_nonempty (queue (sq p)) ->
            texts_nonempty (queue (sq (after_writes ws p))).
Proof.
  induction ws as [|[[e self] msg] ws IH]; intros p Hq; [exact Hq|].
  cbn [after_writes fold_left]. apply IH.
  destruct (write e self msg p) as [r p'] eqn:E.
  exact (write_keeps_texts_nonempty _ _ _ _ _ _ Hq E).
Qed.

(** X7.  A queue that only writers have filled never makes [get] fail:
    after any sequence of writes, made by any writers at any moments,
    returning or raising, [get] returns. *)
Theorem get_returns_after_writes (ws : list (env * _SQWriter * string))
    (e : env) (p : process) :
  texts_nonempty (queue (sq p)) ->
  exists out, fst (get e (after_writes ws p)) = Ret out.
Proof.
  intro Hq. rewrite get_eval by (apply after_writes_texts_nonempty; exact Hq).
  eexists. reflexivity.
Qed.

Lemma get_returns_after_writes_witness :
  texts_nonempty (queue (sq p0))
  /\ exists out,
       fst (get e_stale
              (after_writes
                 [(e_fresh, w1, "a"); (e_closed, w1, "b");
                  (e_stale, w1_err, EmptyString); (e_stale, w1_err, NL)]
                 p0))
         = Ret out.
Proof.
  assert (H : texts_nonempty (queue (sq p0))) by constructor.
  split; [exact H|].
  exact (get_returns_after_writes _ e_stale p0 H).
Defined.

(** X8.  A ValueError of the terminal does not break a write: when the
    message has been queued and the print of the line on the terminal
    raises a ValueError, [write] returns, the message stays queued,
    nothing reaches the terminal, and [sys.stdout] and [sys.stderr] are
    left as they are. *)
Theorem write_survives_detached_terminal (e : env) (self : _SQWriter)
    (msg text : string) (p : process) :
  msg <> EmptyString ->
  fault e CallStrftime = None ->
  fault e CallPut = None ->
  fault e CallFormat = None ->
  fault e CallPrint = Some (ValueError text) ->
  fst (write e self msg p) = Ret tt
  /\ queue (sq (snd (write e self msg p)))
     = (queue (sq p)
          ++ [(millis_timestr (datetime_now e), stream_name self, msg)])%list
  /\ terminal (snd (write e self msg p)) = terminal p
  /\ sys (snd (write e self msg p)) = sys p.
Proof.
  intros Hm Hs Hp Hf Hpr.
  rewrite (write_print_ValueError_swallowed e self msg p text Hm Hs Hp Hf Hpr).
  rewrite timestr_millis. repeat split.
Qed.

Lemma write_survives_detached_terminal_witness :
  fault e_detached CallPrint
    = Some (ValueError "underlying buffer has been detached")
  /\ PrimFloat.ltb MIN_READ_TIME
       (PrimFloat.sub (time_time e_detached) (last_read_ts (sq p0))) = true
  /\ fst (write e_detached w1 "hello" p0) = Ret tt
  /\ queue (sq (snd (write e_detached w1 "hello" p0)))
     = [("09:05:59.001", "W1", "hello")]
  /\ terminal (snd (write e_detached w1 "hello" p0)) = EmptyString.
Proof.
  split; [reflexivity|]. split; [reflexivity|].
  destruct (write_survives_detached_terminal e_detached w1 "hello"
              "underlying buffer has been detached" p0)
    as (F & Q & T & _);
    [discriminate | reflexivity | reflexivity | reflexivity | reflexivity |].
  split; [exact F|]. split; [exact Q | exact T].
Defined.

(** X9.  Nothing reaches the terminal from a write that is made within
    the staleness limit of the last drain, and nothing from the write of
    a bare newline, whether the write returns or raises. *)
Theorem write_keeps_terminal (e : env) (self : _SQWriter) (msg : string)
    (p : process) :
  PrimFloat.ltb MIN_READ_TIME
    (PrimFloat.sub (time_time e) (last_read_ts (sq p))) = false
  \/ msg = NL ->
  terminal (snd (write e self msg p)) = terminal p.
Proof.
  intro H. rewrite write_handler.
  assert (E : terminal (snd (write_try e self msg p)) = terminal p).
  { unfold write_try. unfold_py.
    destruct (nonempty msg); cbv beta iota; [|reflexivity].
    destruct (fault e CallStrftime); cbv beta iota; [reflexivity|].
    destruct (fault e CallPut); cbv beta iota; [reflexivity|].
    cbn [sq with_sq queue_put set_queue last_read_ts].
    assert (C : PrimFloat.ltb MIN_READ_TIME
                  (PrimFloat.sub (time_time e) (last_read_ts (sq p)))
                && negb (String.eqb msg NL) = false).
    { destruct H as [H | ->].
      - rewrite H. reflexivity.
      - rewrite String.eqb_refl. apply andb_false_r. }
    rewrite C. reflexivity. }
  destruct (write_try e self msg p) as [[u|ex|] p1]; exact E.
Qed.

Lemma write_keeps_terminal_witness :
  PrimFloat.ltb MIN_READ_TIME
    (PrimFloat.sub (time_time e_fresh) (last_read_ts (sq p0))) = false
  /\ terminal (snd (write e_fresh w1 "hello" p0)) = terminal p0.
Proof.
  assert (H : PrimFloat.ltb MIN_READ_TIME
                (PrimFloat.sub (time_time e_fresh) (last_read_ts (sq p0)))
              = false) by reflexivity.
  split; [exact H|].
  exact (write_keeps_terminal e_fresh w1 "hello" p0 (or_introl H)).
Defined.

(** X10.  A write that raises puts the original streams back and leaves
    the StreamQueue connected: [connect] still refuses, and [disconnect]
    succeeds and binds the handles that [connect] had recorded. *)
Theorem failed_write_stays_connected (e : env) (self : _SQWriter)
    (msg process_name : string) (p p' : process) (ex : exn)
    (out err : stream) :
  initial_streams (sq p) = Some (out, err) ->
  write e self msg p = (Raise ex, p') ->
  connect process_name p'
    = (Raise (RuntimeError "StreamQueue is already connected"), p')
  /\ fst (disconnect p') = Ret tt
  /\ stdout (sys (snd (disconnect p'))) = out
  /\ stderr (sys (snd (disconnect p'))) = err
  /\ initial_streams (sq (snd (disconnect p'))) = None.
Proof.
  intros Hi Hw.
  pose proof (write_frame e self msg p) as (Hk & _).
  rewrite Hw in Hk. cbn [snd] in Hk. rewrite Hi in Hk.
  split.
  - apply connect_twice. rewrite Hk. discriminate.
  - rewrite (disconnect_connected _ _ _ Hk). repeat split.
Qed.

Lemma failed_write_stays_connected_witness :
  initial_streams (sq p1) = Some (TextIO 1, TextIO 2)
  /\ fst (write e_closed w1 "hello" p1)
     = Raise (ValueError "Queue is closed")
  /\ fst (connect "W2" (snd (write e_closed w1 "hello" p1)))
     = Raise (RuntimeError "StreamQueue is already connected")
  /\ fst (disconnect (snd (write e_closed w1 "hello" p1))) = Ret tt.
Proof.
  assert (Hi : initial_streams (sq p1) = Some (TextIO 1, TextIO 2))
    by reflexivity.
  assert (Hw : write e_closed w1 "hello" p1
               = (Raise (ValueError "Queue is closed"),
                  snd (write e_closed w1 "hello" p1)))
    by (vm_compute; reflexivity).
  split; [exact Hi|]. split; [rewrite Hw; reflexivity|].
  destruct (failed_write_stays_connected e_closed w1 "hello" "W2" p1 _ _ _ _
              Hi Hw) as (C & D & _).
  split; [rewrite C; reflexivity | exact D].
Defined.

(** X11.  For a message that is a sequence of complete lines, the
    slice-and-replace expression of [get] puts the line-head between the
    lines and none after the last newline; for a message whose last
    line is unfinished, it puts the line-head between the lines and
    leaves the end as it is. *)
Theorem body_part_lines (line_head : string) (lines : list string) :
  Forall nl_free lines ->
  body_part line_head (join NL lines ++ NL)
    = Some (join (NL ++ line_head) lines ++ NL)
  /\ (List.last lines EmptyString <> EmptyString ->
      body_part line_head (join NL lines)
        = Some (join (NL ++ line_head) lines)).
Proof.
  intro Hl. split.
  - rewrite body_part_coalesced.
    + rewrite (coalesced_lines_terminated _ _ Hl). reflexivity.
    + intro H. apply append_eq_nil in H. destruct H as [_ H]. discriminate.
  - intro Hlast. rewrite body_part_coalesced.
    + rewrite (coalesced_lines_unfinished _ _ Hl Hlast). reflexivity.
    + intro H.
      pose proof (coalesced_lines_unfinished line_head _ Hl Hlast) as C.
      rewrite H in C. cbn in C.
      destruct lines as [|l ls]; [cbn in Hlast; congruence|].
      destruct ls as [|l2 ls'].
      * cbn in C, Hlast. congruence.
      * change (join (NL ++ line_head) (l :: l2 :: ls'))
          with (l ++ (NL ++ line_head)
                  ++ join (NL ++ line_head) (l2 :: ls')) in C.
        symmetry in C. apply append_eq_nil in C.
        destruct C as [_ C]. discriminate.
Qed.

Lemma body_part_lines_witness :
  Forall nl_free ["a"; ""; "b"]
  /\ body_part "[t W1] " ("a" ++ NL ++ NL ++ "b" ++ NL)
     = Some ("a" ++ NL ++ "[t W1] " ++ NL ++ "[t W1] b" ++ NL).
Proof.
  assert (H : Forall nl_free ["a"; ""; "b"])
    by (repeat constructor).
  split; [exact H|].
  exact (proj1 (body_part_lines "[t W1] " ["a"; ""; "b"] H)).
Defined.

(** The loop on a batch that has an empty text in it: the messages
    before it are reported, then the loop raises, with the queue cut
    down to what came after. *)
Lemma get_loop_empty_text (good : list msgtuple) (t n : string)
    (rest : list msgtuple) :
  texts_nonempty good ->
  forall (out : string) (p : process),
    get_loop (good ++ (t, n, EmptyString) :: rest) out p
      = (Raise (IndexError "string index out of range"),
         with_sq (fun s => set_queue rest (loop_end good s)) p).
Proof.
  induction 1 as [|[[t' n'] x] good Hx Hgood IH]; intros out p.
  - cbn. destruct p as [s [q ts l b i] tm]. reflexivity.
  - cbn in Hx. cbn [app get_loop].
    unfold bind at 1. unfold modify at 1.
    unfold bind at 1. unfold gets at 1.
    unfold bind at 1. unfold gets at 1.
    rewrite (body_part_coalesced _ _ Hx).
    unfold bind at 1. unfold modify at 1.
    rewrite IH. reflexivity.
Qed.

(** X12.  A message with an empty text stops the drain: [get] raises an
    IndexError, the text of the messages before it is lost with them,
    the messages after it stay queued, and [last_read_ts] is not
    moved. *)
Theorem get_stops_at_empty_text (e : env) (p : process)
    (good : list msgtuple) (t n : string) (rest : list msgtuple) :
  texts_nonempty good ->
  queue (sq p) = (good ++ (t, n, EmptyString) :: rest)%list ->
  fst (get e p) = Raise (IndexError "string index out of range")
  /\ queue (sq (snd (get e p))) = rest
  /\ last_read_ts (sq (snd (get e p))) = last_read_ts (sq p).
Proof.
  intros Hg Hq. unfold get. unfold bind, gets.
  rewrite Hq, (get_loop_empty_text good t n rest Hg).
  cbn. repeat split.
Qed.

Lemma get_stops_at_empty_text_witness :
  texts_nonempty [("09:05:59.001", "W1", "kept?")]
  /\ fst (get e_stale
            (with_sq (set_queue [("09:05:59.001", "W1", "kept?");
                                 ("09:05:59.002", "W1", EmptyString);
                                 ("09:05:59.003", "W1", "later")]) p0))
     = Raise (IndexError "string index out of range")
  /\ queue (sq (snd (get e_stale
            (with_sq (set_queue [("09:05:59.001", "W1", "kept?");
                                 ("09:05:59.002", "W1", EmptyString);
                                 ("09:05:59.003", "W1", "later")]) p0))))
     = [("09:05:59.003", "W1", "later")].
Proof.
  assert (H : texts_nonempty [("09:05:59.001", "W1", "kept?")])
    by (repeat constructor; discriminate).
  split; [exact H|].
  destruct (get_stops_at_empty_text e_stale
              (with_sq (set_queue [("09:05:59.001", "W1", "kept?");
                                   ("09:05:59.002", "W1", EmptyString);
                                   ("09:05:59.003", "W1", "later")]) p0)
              _ "09:05:59.002" "W1" [("09:05:59.003", "W1", "later")]
              H eq_refl) as (F & Q & _).
  split; [exact F | exact Q].
Defined.

End StreamsMore.

(** ** QcodesProcess.run and get_stream_queue *)

Module WorkerSpec.

Import Streams Examples MoreExamples Worker ConnectSpec StreamsMore.

(** X13.  The StreamQueue is created once: the first call of
    [get_stream_queue] returns a queue and stores it, and a later call,
    at any later clock reading, returns that same queue and stores
    nothing. *)
Theorem get_stream_queue_singleton (t1 t2 : float)
    (instance : option StreamQueue) :
  let first := get_stream_queue t1 instance in
  get_stream_queue t2 (snd first) = first
  /\ exists q, fst first = Ret q /\ snd first = Some q.
Proof.
  unfold get_stream_queue, bind, gets, modify, ret.
  destruct instance as [q|]; cbn; split; try reflexivity;
    eexists; split; reflexivity.
Qed.

Section Run.

Variable name : string.
Variable target : M process unit.
Variable print_exc : exn -> M process unit.

(** X14.  When the StreamQueue is already connected, [run] raises the
    already-connected error before anything else: the target is not
    run, and the connection that exists is not touched. *)
Theorem run_already_connected (p : process) :
  initial_streams (sq p) <> None ->
  run name true target print_exc p
    = (Raise (RuntimeError "StreamQueue is already connected"), p).
Proof.
  intro H. unfold run, bind. rewrite (connect_twice _ _ H). reflexivity.
Qed.

(** The [finally] suite of [run] never raises. *)
Lemma run_finally_returns (stream_queue : bool) (p : process) :
  fst (run_finally stream_queue p) = Ret tt.
Proof.
  unfold run_finally. destruct stream_queue; [|reflexivity].
  unfold bind, gets.
  destruct (initial_streams (sq p)) as [[out err]|] eqn:E; [|reflexivity].
  rewrite (disconnect_connected _ _ _ E). reflexivity.
Qed.

(** X15.  With a StreamQueue that is not connected, whenever [run]
    comes back, by returning or by raising, [sys.stdout] and
    [sys.stderr] are the handles they were when it started and the
    StreamQueue is not connected, provided the target and [print_exc]
    do not connect or disconnect it themselves: it does not matter
    whether the target returned or raised, nor what it did to [sys]. *)
Theorem run_releases_streams (p : process) :
  initial_streams (sq p) = None ->
  keeps_connection target ->
  (forall ex, keeps_connection (print_exc ex)) ->
  fst (run name true target print_exc p) <> Hang ->
  stdout (sys (snd (run name true target print_exc p))) = stdout (sys p)
  /\ stderr (sys (snd (run name true target print_exc p))) = stderr (sys p)
  /\ initial_streams (sq (snd (run name true target print_exc p))) = None.
Proof.
  intros Hi Ht Hp.
  set (p1 := {| sys := set_streams
                         (Writer {| stream_name := name |})
                         (Writer {| stream_name := name ++ " ERR" |})
                         (sys p);
                sq := set_initial_streams
                        (Some (stdout (sys p), stderr (sys p))) (sq p);
                terminal := terminal p |}).
  set (body := try_except target (fun _ => true) print_exc).
  assert (E : run name true target print_exc p =
              try_finally body (run_finally true) p1).
  { unfold run. unfold bind at 1. rewrite (connect_fresh _ _ Hi).
    reflexivity. }
  rewrite E. clear E.
  assert (Hb : initial_streams (sq (snd (body p1)))
               = Some (stdout (sys p), stderr (sys p))).
  { unfold body, try_except. specialize (Ht p1).
    destruct (target p1) as [[u|ex|] p2]; cbn [snd] in *;
      try (rewrite Ht; reflexivity).
    rewrite (Hp ex p2), Ht. reflexivity. }
  unfold try_finally.
  destruct (body p1) as [[u|ex|] p2]; cbn [snd] in Hb.
  - intros _. unfold run_finally, bind, gets. rewrite Hb.
    rewrite (disconnect_connected _ _ _ Hb). cbn. repeat split.
  - intros _. unfold run_finally, bind, gets. rewrite Hb.
    rewrite (disconnect_connected _ _ _ Hb). cbn. repeat split.
  - intro H. exfalso. apply H. reflexivity.
Qed.

(** X16.  An exception of the target does not leave [run]: when the
    target raises and [print_exc] returns, [run] returns. *)
Theorem run_swallows_target_exception (stream_queue : bool) (p p2 : process)
    (ex : exn) :
  (stream_queue = true -> initial_streams (sq p) = None) ->
  target (snd ((if stream_queue then connect name else ret tt) p))
    = (Raise ex, p2) ->
  fst (print_exc ex p2) = Ret tt ->
  fst (run name stream_queue target print_exc p) = Ret tt.
Proof.
  intros Hi Ht Hp. unfold run.
  unfold bind at 1.
  assert (Hc : fst ((if stream_queue then connect name else ret tt) p)
               = Ret tt).
  { destruct stream_queue; [|reflexivity].
    rewrite (connect_fresh _ _ (Hi eq_refl)). reflexivity. }
  destruct ((if stream_queue then connect name else ret tt) p) as [r p1].
  cbn [fst snd] in *. subst r. cbv beta iota.
  unfold try_finally, try_except. rewrite Ht.
  destruct (print_exc ex p2) as [r p3]. cbn [fst] in Hp. subst r.
  pose proof (run_finally_returns stream_queue p3) as F.
  destruct (run_finally stream_queue p3) as [r p4].
  cbn [fst] in F. subst r. reflexivity.
Qed.

End Run.

Lemma hello_keeps_connection : keeps_connection hello.
Proof.
  intro p. unfold hello, bind.
  pose proof (write_frame e_fresh w1 "hello" p) as (H1 & _).
  destruct (write e_fresh w1 "hello" p) as [[u|ex|] p1]; cbn [snd] in *;
    try exact H1.
  pose proof (write_frame e_fresh w1 NL p1) as (H2 & _).
  rewrite H2. exact H1.
Qed.

Lemma run_already_connected_witness :
  initial_streams (sq p1) <> None
  /\ run "W2" true hello silent_exc p1
     = (Raise (RuntimeError "StreamQueue is already connected"), p1).
Proof.
  assert (H : initial_streams (sq p1) <> None) by discriminate.
  split; [exact H|].
  exact (run_already_connected "W2" hello silent_exc p1 H).
Defined.

Lemma run_releases_streams_witness :
  initial_streams (sq p0) = None
  /\ keeps_connection hello
  /\ stdout (sys (snd (run "W1" true hello silent_exc p0))) = TextIO 1
  /\ stderr (sys (snd (run "W1" true hello silent_exc p0))) = TextIO 2
  /\ initial_streams (sq (snd (run "W1" true hello silent_exc p0))) = None.
Proof.
  assert (Hi : initial_streams (sq p0) = None) by reflexivity.
  assert (Hs : forall ex, keeps_connection (silent_exc ex))
    by (intros ex p; reflexivity).
  assert (Hn : fst (run "W1" true hello silent_exc p0) <> Hang)
    by (vm_compute; discriminate).
  split; [exact Hi|]. split; [exact hello_keeps_connection|].
  exact (run_releases_streams "W1" hello silent_exc p0 Hi
           hello_keeps_connection Hs Hn).
Defined.

Lemma run_swallows_target_exception_witness :
  crash (snd (connect "W1" p0))
    = (Raise (ValueError "no such instrument"), snd (connect "W1" p0))
  /\ fst (run "W1" true crash silent_exc p0) = Ret tt.
Proof.
  assert (Ht : crash (snd ((if true then connect "W1" else ret tt) p0))
               = (Raise (ValueError "no such instrument"),
                  snd (connect "W1" p0))) by reflexivity.
  split; [exact Ht|].
  exact (run_swallows_target_exception "W1" crash silent_exc true p0 _ _
           (fun _ => eq_refl) Ht eq_refl).
Defined.

End WorkerSpec.

(** ** set_mp_method *)

Module MpSpec.

Import Mp.

(** [set_mp_method], evaluated. *)
Lemma set_mp_method_eval (method : string) (force : bool) (c : context) :
  set_mp_method method force c =
    match actual c, force with
    | Some m, false =>
        if String.eqb m method then (Ret tt, c)
        else (Raise (unexpected m method), c)
    | _, _ =>
        if offered method c then (Ret tt, set_actual (Some method) c)
        else (Raise (ValueError ("cannot find context for " ++ repr method)),
              c)
    end.
Proof.
  unfold set_mp_method, set_start_method, get_start_method, offered,
    unexpected, try_except, bind, gets, modify, ret, raise.
  destruct (actual c) as [m|] eqn:Ea; destruct force; cbn;
    try (destruct (existsb _ _); cbn; rewrite ?String.eqb_refl; reflexivity).
  rewrite Ea. destruct (String.eqb m method); reflexivity.
Qed.

Lemma offered_In (method : string) (c : context) :
  In method (available c) -> offered method c = true.
Proof.
  intro H. apply existsb_exists. exists method.
  split; [exact H | apply String.eqb_refl].
Qed.

(** X1.  When [set_mp_method(method)] has returned, that method is the
    start method, and calling [set_mp_method(method)] again returns and
    changes nothing. *)
Theorem set_mp_method_idempotent (method : string) (force : bool)
    (c : context) :
  fst (set_mp_method method force c) = Ret tt ->
  actual (snd (set_mp_method method force c)) = Some method
  /\ set_mp_method method false (snd (set_mp_method method force c))
     = (Ret tt, snd (set_mp_method method force c)).
Proof.
  rewrite (set_mp_method_eval method force c).
  destruct (actual c) as [m|] eqn:Ea; destruct force;
    try (destruct (offered method c); cbn [fst snd]; [intros _|discriminate];
         split; [reflexivity|];
         rewrite set_mp_method_eval; cbn [actual set_actual];
         rewrite String.eqb_refl; reflexivity).
  destruct (String.eqb m method) eqn:E; cbn [fst snd]; [intros _|discriminate].
  apply String.eqb_eq in E. subst m.
  split; [exact Ea|].
  rewrite set_mp_method_eval, Ea, String.eqb_refl. reflexivity.
Qed.

Lemma set_mp_method_idempotent_witness :
  fst (set_mp_method "spawn" false linux) = Ret tt
  /\ actual (snd (set_mp_method "spawn" false linux)) = Some "spawn".
Proof.
  assert (H : fst (set_mp_method "spawn" false linux) = Ret tt)
    by reflexivity.
  split; [exact H|].
  exact (proj1 (set_mp_method_idempotent "spawn" false linux H)).
Defined.

(** X2.  Once a start method has been fixed, [set_mp_method] with
    another method and without [force] raises the RuntimeError that
    names both methods, and the fixed method stays. *)
Theorem set_mp_method_refuses_change (method fixed : string) (c : context) :
  actual c = Some fixed ->
  fixed <> method ->
  set_mp_method method false c = (Raise (unexpected fixed method), c).
Proof.
  intros Ea Hne. rewrite set_mp_method_eval, Ea.
  apply String.eqb_neq in Hne. rewrite Hne. reflexivity.
Qed.

Lemma set_mp_method_refuses_change_witness :
  set_mp_method "spawn" false (set_actual (Some "fork") linux)
    = (Raise (RuntimeError
         "unexpected multiprocessing method 'fork' when trying to set 'spawn'"),
       set_actual (Some "fork") linux).
Proof.
  apply (set_mp_method_refuses_change "spawn" "fork").
  - reflexivity.
  - discriminate.
Defined.

(** X3.  With [force], every method that the platform offers is set,
    whatever had been fixed before. *)
Theorem set_mp_method_force (method : string) (c : context) :
  In method (available c) ->
  set_mp_method method true c = (Ret tt, set_actual (Some method) c).
Proof.
  intro H. rewrite set_mp_method_eval, (offered_In _ _ H).
  destruct (actual c); reflexivity.
Qed.

Lemma set_mp_method_force_witness :
  set_mp_method "spawn" true (set_actual (Some "fork") linux)
    = (Ret tt, set_actual (Some "spawn") linux).
Proof.
  apply (set_mp_method_force "spawn" (set_actual (Some "fork") linux)).
  cbn. auto.
Defined.

(** X4.  The error of [mp.set_start_method] about a context that has
    already been set never leaves [set_mp_method]. *)
Theorem set_mp_method_hides_MP_ERR (method : string) (force : bool)
    (c : context) :
  fst (set_mp_method method force c) <> Raise (RuntimeError MP_ERR).
Proof.
  rewrite set_mp_method_eval.
  destruct (actual c) as [m|]; destruct force;
    try (destruct (offered method c); cbn; discriminate).
  destruct (String.eqb m method); cbn; [discriminate|].
  unfold unexpected, MP_ERR. intro H. injection H as H.
  cbn in H. discriminate.
Qed.

End MpSpec.

(** ** Sequences of calls on a manager *)

Module CallsSpec.

Import Server Protocol Examples MoreExamples Calls ServerSpec.

Lemma write_keeps_name (c : controller) (q : list pyval) :
  name (self (snd (write q c))) = name (self c).
Proof.
  rewrite write_eval. destruct (_error_queue (self c)); reflexivity.
Qed.

(** What one failing [write] does to the error channel and to
    [sys.stderr]. *)
Lemma write_takes_one_error (c : controller) (q : list pyval)
    (err : string) (errs : list string) :
  _error_queue (self c) = err :: errs ->
  fst (write q c) = Raise (RuntimeError (errhead_of (name (self c))))
  /\ _error_queue (self (snd (write q c))) = errs
  /\ stderr_text (snd (write q c))
     = stderr_text c ++ error_report (name (self c)) err ++ NL.
Proof.
  intro E. rewrite write_eval, E.
  unfold reported, enqueued. cbn [fst snd self stderr_text].
  cbn [_error_queue set_channels errors name]. rewrite E. repeat split.
Qed.

(** X17.  Pending errors come out one per call, oldest first: as many
    writes as there are errors on the error channel all raise, each
    takes one error off and prints its report on [sys.stderr], in the
    order of the channel; the errors beyond that stay queued; and when
    none is left the next write returns. *)
Theorem writes_report_errors_in_order (qs : list (list pyval)) :
  forall c : controller,
    (length qs <= length (_error_queue (self c)))%nat ->
    fst (writes qs c)
      = map (fun _ => Raise (RuntimeError (errhead_of (name (self c))))) qs
    /\ _error_queue (self (snd (writes qs c)))
       = skipn (length qs) (_error_queue (self c))
    /\ stderr_text (snd (writes qs c))
       = fold_left
           (fun text err => text ++ error_report (name (self c)) err ++ NL)
           (firstn (length qs) (_error_queue (self c)))
           (stderr_text c)
    /\ (length qs = length (_error_queue (self c)) ->
        forall q, fst (write q (snd (writes qs c))) = Ret tt).
Proof.
  induction qs as [|q qs IH]; intros c Hlen.
  - cbn [writes fst snd map length skipn firstn fold_left].
    repeat split. intros H q.
    rewrite write_eval.
    destruct (_error_queue (self c)); [reflexivity | discriminate].
  - destruct (_error_queue (self c)) as [|err errs] eqn:E;
      [cbn in Hlen; lia|].
    cbn [writes].
    destruct (write_takes_one_error c q err errs E) as (F & Q & T).
    pose proof (write_keeps_name c q) as N.
    destruct (write q c) as [r c1]. cbn [fst snd] in *. subst r.
    assert (Hlen1 : (length qs <= length (_error_queue (self c1)))%nat)
      by (rewrite Q; cbn in Hlen; lia).
    destruct (IH c1 Hlen1) as (F1 & Q1 & T1 & R1).
    destruct (writes qs c1) as [rs c2]. cbn [fst snd] in *.
    rewrite N in *. rewrite Q in *.
    split; [cbn [map]; rewrite F1; reflexivity|].
    split; [exact Q1|].
    split; [cbn [length firstn fold_left]; rewrite T1, T; reflexivity|].
    intro H. apply R1. cbn in H. lia.
Qed.

Lemma writes_report_errors_in_order_witness :
  (length [[PStr "a"]; [PStr "b"]]
     <= length (_error_queue (self c_two_errors)))%nat
  /\ fst (writes [[PStr "a"]; [PStr "b"]] c_two_errors)
     = [Raise (RuntimeError "*** error on srv ***");
        Raise (RuntimeError "*** error on srv ***")]
  /\ stderr_text (snd (writes [[PStr "a"]; [PStr "b"]] c_two_errors))
     = "*** error on srv ***" ++ NL ++ NL ++ "first" ++ NL
         ++ "*** error on srv ***" ++ NL ++ NL ++ "second" ++ NL.
Proof.
  assert (H : (length [[PStr "a"]; [PStr "b"]]
                 <= length (_error_queue (self c_two_errors)))%nat)
    by (cbn; lia).
  split; [exact H|].
  destruct (writes_report_errors_in_order _ c_two_errors H) as (F & _ & T & _).
  split; [exact F | exact T].
Defined.

(** A [halt] that returns leaves a process that has exited. *)
Lemma halt_returned_exited (c : controller) :
  fst (halt c) = Ret tt ->
  proc_status (_server (self (snd (halt c)))) = Exited.
Proof.
  rewrite halt_eval.
  assert (J : forall c1, fst (join c1) = Ret tt ->
                proc_status (_server (self (snd (join c1)))) = Exited).
  { intros c1. rewrite join_eval.
    destruct (proc_status (_server (self c1))); cbn; congruence. }
  destruct (proc_status (_server (self c))); try apply J;
    destruct (ask [PStr "halt"] None (logged [EvIsAlive] c)) as [[r|e|] c1];
    cbn [fst snd]; try discriminate; apply J.
Qed.

(** X18.  [halt] can be repeated: after a [halt] that returned, another
    [halt] returns too, asks nothing of the worker and leaves the
    manager as it is; it only looks at the process and joins it. *)
Theorem halt_twice (c : controller) :
  fst (halt c) = Ret tt ->
  let c' := snd (halt c) in
  fst (halt c') = Ret tt
  /\ self (snd (halt c')) = self c'
  /\ stderr_text (snd (halt c')) = stderr_text c'
  /\ log (snd (halt c'))
     = (log c' ++ [EvIsAlive; EvJoin (pid (_server (self c')))])%list.
Proof.
  intros H c'. subst c'.
  pose proof (halt_returned_exited c H) as E.
  set (c' := snd (halt c)) in *.
  rewrite halt_eval, E, join_eval. cbn [self logged]. rewrite E.
  unfold joined, logged, with_self. cbn [fst snd self stderr_text log].
  rewrite <- app_assoc. cbn [app].
  repeat split.
  destruct (self c') as [n qq rq eq sc ql qt [pi pn tg st]].
  cbn in E. subst st. reflexivity.
Qed.

Lemma halt_twice_witness :
  fst (halt c_echo) = Ret tt
  /\ fst (halt (snd (halt c_echo))) = Ret tt
  /\ log (snd (halt (snd (halt c_echo))))
     = (log (snd (halt c_echo)) ++ [EvIsAlive; EvJoin 0])%list.
Proof.
  assert (H : fst (halt c_echo) = Ret tt) by reflexivity.
  split; [exact H|].
  destruct (halt_twice c_echo H) as (F & _ & _ & L).
  split; [exact F | exact L].
Defined.




(** X20.  Without a default timeout there is no limit to the wait of an
    [ask] whose timeout is missing or falsy: if no response comes, the
    call never returns, not even when an error is pending, and the lock
    stays held. *)
Theorem ask_without_limit_blocks (c : controller) (query : list pyval)
    (timeout : timeout_val) :
  query_timeout (self c) = None ->
  truthy timeout = false ->
  _response_queue (self (waited query None c)) = [] ->
  fst (ask query timeout c) = Hang
  /\ query_lock (self (snd (ask query timeout c))) = S (query_lock (self c))
  /\ stderr_text (snd (ask query timeout c)) = stderr_text c.
Proof.
  intros Hq Ht Hr. rewrite ask_eval.
  assert (E : effective_timeout timeout c = None)
    by (unfold effective_timeout, py_or; rewrite Ht; exact Hq).
  rewrite E, Hr. cbn [fst snd].
  split; [reflexivity|]. split; [|reflexivity].
  unfold waited. cbn [self].
  rewrite (proj1 (proj2 (worker_reacts_keeps _ _))). reflexivity.
Qed.

Lemma ask_without_limit_blocks_witness :
  query_timeout (self c_patient) = None
  /\ truthy (Some (NInt 0)) = false
  /\ fst (ask [PStr "x"] (Some (NInt 0)) c_patient) = Hang.
Proof.
  assert (Hq : query_timeout (self c_patient) = None) by reflexivity.
  assert (Ht : truthy (Some (NInt 0)) = false) by reflexivity.
  split; [exact Hq|]. split; [exact Ht|].
  exact (proj1 (ask_without_limit_blocks c_patient [PStr "x"]
                  (Some (NInt 0)) Hq Ht eq_refl)).
Defined.

End CallsSpec.
